(** * bel_enrichment.indra_utils: evidence filtering, row extraction and printing

    A shallow embedding of [src/bel_enrichment/indra_utils.py].  Python
    strings are byte strings (their UTF-8 encoding: emptiness, substring
    tests and code-point order are the same on the encoding), the set
    constants are [gset string], floats are IEEE binary64 numbers
    ([spec_float] at precision 53), exceptions are an outcome type and the
    calls into the INDRA and PyBEL collaborators are section variables whose
    invocations are recorded in a call log.  The functions are first given
    on the values of statements, as the run of their bodies; module [Obj]
    then gives statements as objects that are changed in place and the
    generator functions as generators that run when they are advanced. *)

From Stdlib Require Import ZArith Floats.SpecFloat.
From stdpp Require Import functions base list strings gmap sorting pretty.

Local Open Scope string_scope.
Local Open Scope Z_scope.

(** ** Python values and truthiness *)

Module Py.

(** The values the evidence filter computes with: [None], [str], [bool]. *)
Inductive value :=
| VNone
| VStr (s : string)
| VBool (b : bool).

(** [bool(v)]: [None] and the empty string are falsy. *)
Definition truthy (v : value) : bool :=
  match v with
  | VNone => false
  | VStr s => negb (String.eqb s "")
  | VBool b => b
  end.

(** [a and b]: the left operand when it is falsy, otherwise the right one,
    which is only evaluated in that case. *)
Definition py_and (a : value) (b : unit -> value) : value :=
  if truthy a then b tt else a.

(** An attribute of type [Optional[str]] read as a value. *)
Definition of_opt (o : option string) : value :=
  match o with
  | None => VNone
  | Some s => VStr s
  end.

(** [v not in S] for a set of strings [S]; [None] is hashable and is a
    member of no set of strings. *)
Definition not_in (v : value) (S : gset string) : value :=
  match v with
  | VStr s => VBool (negb (bool_decide (s ∈ S)))
  | _ => VBool true
  end.

(** Exceptions, by class: [except AttributeError] catches the first
    constructor (the class and its subclasses) and nothing else. *)
Inductive exn :=
| AttributeError (msg : string)
| OtherException (cls msg : string).

Definition is_AttributeError (e : exn) : bool :=
  match e with
  | AttributeError _ => true
  | OtherException _ _ => false
  end.

(** What a call does: return a value or raise. *)
Inductive outcome (A : Type) :=
| Returned (a : A)
| Raised (e : exn).
Arguments Returned {A} a.
Arguments Raised {A} e.

End Py.
Import Py.

(** ** Python floats: [round(x, n)] and [str(x)] *)

Module PyFloat.

Definition prec : Z := 53.
Definition emax : Z := 1024.

(** A Python [float] is an IEEE binary64 number. *)
Definition float : Type := spec_float.

Definition is_valid (x : float) : bool := valid_binary prec emax x.

(** The magnitude [m * 2^e] of a finite float as the fraction
    [mag_num m e / mag_den e]. *)
Definition mag_num (m : positive) (e : Z) : Z := Z.pos m * 2 ^ Z.max e 0.
Definition mag_den (e : Z) : Z := 2 ^ Z.max (- e) 0.

(** [n / d] rounded to the nearest integer, ties to the even one ([0 < d]). *)
Definition round_half_even (n d : Z) : Z :=
  let q := n / d in
  match 2 * (n mod d) ?= d with
  | Lt => q
  | Gt => q + 1
  | Eq => if Z.even q then q else q + 1
  end.

(** The double nearest to [(-1)^s * D * 10^q], as [float("DeQ")] gives it. *)
Definition strtod (s : bool) (D q : Z) : float :=
  match D with
  | Z.pos p =>
      if 0 <=? q then binary_round prec emax s (p * Z.to_pos (10 ^ q)) 0
      else SFdiv prec emax (S754_finite s p 0)
                           (S754_finite false (Z.to_pos (10 ^ (- q))) 0)
  | _ => S754_zero s
  end.

(** [round(x, ndigits)] for [0 <= ndigits]: CPython prints the exact value of
    [x] with [ndigits] decimals, correctly rounded (ties to even), and reads
    the decimal back; infinities, NaN and zeros round to themselves. *)
Definition round (x : float) (ndigits : Z) : float :=
  match x with
  | S754_finite s m e =>
      strtod s (round_half_even (10 ^ ndigits * mag_num m e) (mag_den e)) (- ndigits)
  | _ => x
  end.

(** The largest [k' >= k] with [10^k' <= n / d] that [fuel] steps reach. *)
Fixpoint log10_scan (fuel : nat) (k : Z) (n d : Z) : Z :=
  match fuel with
  | O => k
  | S fuel' =>
      if (if 0 <=? k + 1 then d * 10 ^ (k + 1) <=? n
          else d <=? n * 10 ^ (- (k + 1)))
      then log10_scan fuel' (k + 1) n d
      else k
  end.

(** The decimal exponent of [n / d]: an underestimate from the binary
    logarithms, then the scan. *)
Definition floor_log10 (n d : Z) : Z :=
  log10_scan 5 ((Z.log2 n - Z.log2 d - 1) * 30103 / 100000 - 1) n d.

(** The decimal [D * 10^q] with [nd] significant digits nearest to [n / d]. *)
Definition to_digits (nd : Z) (n d : Z) : Z * Z :=
  let q := floor_log10 n d - nd + 1 in
  let D := if 0 <=? q then round_half_even n (d * 10 ^ q)
           else round_half_even (n * 10 ^ (- q)) d in
  if D =? 10 ^ nd then (10 ^ (nd - 1), q + 1) else (D, q).

(** The shortest decimal that reads back as [m * 2^e]: [nd], [nd + 1], ...
    digits are tried in turn; 17 digits always suffice for a double. *)
Fixpoint shortest (fuel : nat) (nd : Z) (m : positive) (e : Z) : Z * Z :=
  let '(D, q) := to_digits nd (mag_num m e) (mag_den e) in
  match fuel with
  | O => (D, q)
  | S fuel' =>
      match strtod false D q with
      | S754_finite _ m' e' =>
          if (m =? m')%positive && (e =? e') then (D, q)
          else shortest fuel' (nd + 1) m e
      | _ => shortest fuel' (nd + 1) m e
      end
  end.

Fixpoint zeros (n : nat) : string :=
  match n with
  | O => ""
  | S n' => "0" +:+ zeros n'
  end.

Definition take_s (n : Z) (s : string) : string :=
  String.substring 0 (Z.to_nat n) s.
Definition drop_s (n : Z) (s : string) : string :=
  String.substring (Z.to_nat n) (String.length s) s.

(** [repr(x)], which is also [str(x)]: the shortest digits, in positional
    notation when the decimal point falls in [(-4, 16]] and in exponent
    notation otherwise; a value without fraction digits gets [.0]. *)
Definition repr (x : float) : string :=
  match x with
  | S754_nan => "nan"
  | S754_infinity s => if s then "-inf" else "inf"
  | S754_zero s => if s then "-0.0" else "0.0"
  | S754_finite s m e =>
      let '(D, q) := shortest 16 1 m e in
      let digits := pretty D in
      let nd := Z.of_nat (String.length digits) in
      let decpt := q + nd in
      (if s then "-" else "") +:+
      (if (-4 <? decpt) && (decpt <=? 16) then
         if decpt <=? 0 then "0." +:+ zeros (Z.to_nat (- decpt)) +:+ digits
         else if nd <=? decpt then digits +:+ zeros (Z.to_nat (decpt - nd)) +:+ ".0"
         else take_s decpt digits +:+ "." +:+ drop_s decpt digits
       else
         let ex := decpt - 1 in
         take_s 1 digits +:+ (if 1 <? nd then "." +:+ drop_s 1 digits else "") +:+
         "e" +:+ (if ex <? 0 then "-" else "+") +:+
         (if Z.abs ex <? 10 then "0" else "") +:+ pretty (Z.abs ex))
  end.

(** [x <= y] on floats. *)
Definition le (x y : float) : bool := SFleb x y.

(** The float [1.0]. *)
Definition one : float := strtod false 1 0.

End PyFloat.

(** ** Module constants *)

Definition header : list string :=
  ["INDRA UUID"; "Belief"; "PMID"; "Evidence"; "API"; "Subject"; "Predicate"; "Object"].

Definition NO_EVIDENCE_TEXT : string := "No evidence text.".
Definition MODIFIED_ASSERTION : string := "Modified assertion".
Definition TEXT_BLACKLIST : gset string := {[ NO_EVIDENCE_TEXT; MODIFIED_ASSERTION ]}.

Definition SOURCE_BLACKLIST : gset string := {[ "bel"; "signor" ]}.
Definition SUBSTRING_BLACKLIST : gset string := {[ "CHEBI"; "PUBCHEM"; "act(bp(" ]}.

(** ** The evidence filter *)

(** Modelled from the spec: the INDRA class [Evidence], of which the module
    reads three attributes, each a string or [None]. *)
Record Evidence := {
  pmid : option string;
  text : option string;
  source_api : option string;
}.

Definition _keep_evidence (evidence : Evidence) : value :=
  py_and (of_opt (pmid evidence)) (fun _ =>
  py_and (of_opt (text evidence)) (fun _ =>
  py_and (not_in (of_opt (text evidence)) TEXT_BLACKLIST) (fun _ =>
  py_and (of_opt (source_api evidence)) (fun _ =>
  not_in (of_opt (source_api evidence)) SOURCE_BLACKLIST)))).

(** A field is present when it is a non-empty string. *)
Definition present (o : option string) : Prop :=
  ∃ s, o = Some s ∧ s ≠ "".

(** Membership of an optional string in a set of strings. *)
Definition opt_in (o : option string) (S : gset string) : Prop :=
  ∃ s, o = Some s ∧ s ∈ S.

(** ** Statements, graphs and rows *)

(** Modelled from the spec: the INDRA class [Statement]: a unique identifier,
    a belief score and an ordered list of evidence. *)
Record Statement := {
  uuid : string;
  belief : PyFloat.float;
  evidence : list Evidence;
}.

(** [statement.evidence = ev] *)
Definition set_evidence (statement : Statement) (ev : list Evidence) : Statement :=
  {| uuid := uuid statement; belief := belief statement; evidence := ev |}.

(** Modelled from the spec: the data dictionary of a PyBEL edge, with the
    keys the module subscripts: [data[RELATION]],
    [data[CITATION][CITATION_IDENTIFIER]], [data[EVIDENCE]] and
    [data[ANNOTATIONS]] with its entries 'source_hash' and 'source_api'. *)
Record Annotations := {
  ann_source_hash : Z;
  ann_source_api : string;
}.

Record EdgeData := {
  RELATION : string;
  CITATION_IDENTIFIER : string;
  EVIDENCE : string;
  ANNOTATIONS : Annotations;
}.

(** [Row = namedtuple('Row', [...])], the fields in declaration order. *)
Record Row := {
  row_uuid : string;
  row_evidence_source_hash : Z;
  row_belief : PyFloat.float;
  row_pmid : string;
  row_evidence : string;
  row_api : string;
  row_bel : string;
}.

(** [str(field)] for each field of a row, in tuple order: what [print] of
    the unpacked row writes between the separators. *)
Definition row_fields (row : Row) : list string :=
  [ row_uuid row;
    pretty (row_evidence_source_hash row);
    PyFloat.repr (row_belief row);
    row_pmid row;
    row_evidence row;
    row_api row;
    row_bel row ].

(** ** Strings *)

(** [sep.join(fields)] *)
Fixpoint join (sep : string) (fields : list string) : string :=
  match fields with
  | [] => ""
  | [f] => f
  | f :: fields' => f +:+ sep +:+ join sep fields'
  end.

(** [s] starts [t]. *)
Fixpoint startswith (t s : string) {struct s} : bool :=
  match s, t with
  | EmptyString, _ => true
  | String _ _, EmptyString => false
  | String c s', String d t' => Ascii.eqb c d && startswith t' s'
  end.

(** [s in bel] on strings: [s] occurs in [bel] at some position. *)
Fixpoint contains (bel s : string) : bool :=
  startswith bel s ||
  match bel with
  | EmptyString => false
  | String _ bel' => contains bel' s
  end.

(** ** Effects: the call log, the output stream and exceptions *)

(** The calls into the assembler that the module makes. *)
Inductive call :=
| Call_PybelAssembler (statements : list Statement)
| Call_make_model (statements : list Statement).

Record World := {
  calls : list call;
  output : list string;
}.

Definition M (A : Type) : Type := World -> outcome A * World.

Definition ret {A} (a : A) : M A := fun w => (Returned a, w).

Definition bind {A B} (m : M A) (k : A -> M B) : M B :=
  fun w =>
    match m w with
    | (Returned a, w') => k a w'
    | (Raised e, w') => (Raised e, w')
    end.

Definition raise {A} (e : exn) : M A := fun w => (Raised e, w).

(** [try: m  except ...: handler] *)
Definition try_except {A} (m : M A) (handler : exn -> M A) : M A :=
  fun w =>
    match m w with
    | (Returned a, w') => (Returned a, w')
    | (Raised e, w') => handler e w'
    end.

(** A call into a collaborator: logged, then its outcome. *)
Definition invoke {A} (c : call) (r : outcome A) : M A :=
  fun w => (r, {| calls := calls w ++ [c]; output := output w |}).

(** [print] of the unpacked [fields] with [sep=sep, file=file]: one line. *)
Definition print (fields : list string) (sep : string) : M unit :=
  fun w => (Returned tt, {| calls := calls w; output := output w ++ [join sep fields] |}).

#[global] Instance M_ret : MRet M := @ret.
#[global] Instance M_bind : MBind M := fun A B k m => bind m k.

(** [for x in l: body x] *)
Fixpoint for_each {A} (l : list A) (body : A -> M unit) : M unit :=
  match l with
  | [] => ret tt
  | x :: l' => body x;; for_each l' body
  end.

(** ** Sorting and slicing *)

(** [<] on sort keys: strings by code point, tuples lexicographically. *)
Class PyLt (K : Type) := py_lt : K -> K -> bool.

#[global] Instance string_lt : PyLt string := String.ltb.

#[global] Instance pair_lt {A B} `{EqDecision A, PyLt A, PyLt B} : PyLt (A * B) :=
  fun x y => if decide (x.1 = y.1) then py_lt x.2 y.2 else py_lt x.1 y.1.

(** One step of a stable insertion: [x], which precedes every element of
    [l] in the input, goes before the first element that is not smaller. *)
Fixpoint insert_by {A K} `{PyLt K} (key : A -> K) (x : A) (l : list A) : list A :=
  match l with
  | [] => [x]
  | y :: l' => if py_lt (key y) (key x) then y :: insert_by key x l' else x :: y :: l'
  end.

(** [sorted(l, key=key)]: Python's sort is stable and compares keys with [<]
    only; the list it returns is computed here by stable insertion. *)
Definition sorted {A K} `{PyLt K} (l : list A) (key : A -> K) : list A :=
  foldr (insert_by key) [] l.

(** [l[:n]]: a negative [n] counts from the end. *)
Definition slice_to {A} (l : list A) (n : Z) : list A :=
  if n <? 0 then take (Z.to_nat (Z.of_nat (length l) + n)) l
  else take (Z.to_nat n) l.

(** [attrgetter('uuid', 'pmid')], the default sort key. *)
Definition attrgetter_uuid_pmid (row : Row) : string * string :=
  (row_uuid row, row_pmid row).

(** The tab character. *)
Definition TAB : string := String (Ascii.ascii_of_nat 9) EmptyString.

(** [sep or default] *)
Definition or_default (sep : option string) (default : string) : string :=
  match sep with
  | Some s => if truthy (VStr s) then s else default
  | None => default
  end.

(** ** The module's functions *)

Section IndraUtils.

(** Modelled from the spec: the collaborators of the module.  Nodes of a BEL
    graph and the assembler object are opaque; a graph is its list of edges
    [(u, v, data)] in iteration order. *)
Context {Node Assembler : Type}.

Record BELGraph := {
  edges : list (Node * Node * EdgeData);
}.

(** [BELGraph()] *)
Definition BELGraph_new : BELGraph := {| edges := [] |}.

(** [pybel.constants.UNQUALIFIED_EDGES] *)
Variable UNQUALIFIED_EDGES : gset string.
(** [PybelAssembler(statements)] and [pba.make_model()] *)
Variable PybelAssembler : list Statement -> outcome Assembler.
Variable make_model : Assembler -> outcome BELGraph.
(** [graph.edge_to_bel(u, v, data, sep=sep, use_identifiers=b)] *)
Variable edge_to_bel : BELGraph -> Node -> Node -> EdgeData -> string -> bool -> string.
(** [run_preassembly(statements)] and [filter_belief(statements, cutoff)] *)
Variable run_preassembly : list Statement -> list Statement.
Variable filter_belief : list Statement -> PyFloat.float -> list Statement.

Definition get_graph_from_statement (statement : Statement) : M BELGraph :=
  pba ← invoke (Call_PybelAssembler [statement]) (PybelAssembler [statement]);
  try_except
    (invoke (Call_make_model [statement]) (make_model pba))
    (fun e => if is_AttributeError e then ret BELGraph_new else raise e).

(** [any(s in bel for s in SUBSTRING_BLACKLIST)] *)
Definition blacklisted (bel : string) : bool :=
  existsb (contains bel) (elements SUBSTRING_BLACKLIST).

(** The loop of [_get_rows_from_statement] over the edges of the graph. *)
Fixpoint rows_of_edges (statement : Statement) (graph : BELGraph)
    (es : list (Node * Node * EdgeData)) : list Row :=
  match es with
  | [] => []
  | (u, v, data) :: es' =>
      if bool_decide (RELATION data ∈ UNQUALIFIED_EDGES) then
        rows_of_edges statement graph es'
      else
        let bel := edge_to_bel graph u v data TAB true in
        if blacklisted bel then
          rows_of_edges statement graph es'
        else
          {| row_uuid := uuid statement;
             row_evidence_source_hash := ann_source_hash (ANNOTATIONS data);
             row_belief := PyFloat.round (belief statement) 2;
             row_pmid := CITATION_IDENTIFIER data;
             row_evidence := EVIDENCE data;
             row_api := ann_source_api (ANNOTATIONS data);
             row_bel := bel |}
          :: rows_of_edges statement graph es'
  end.

Definition _get_rows_from_statement (statement : Statement) : M (list Row) :=
  graph ← get_graph_from_statement statement;
  ret (rows_of_edges statement graph (edges graph)).

(** The body of the generator function, run on the value of the statement:
    the statement as the first advance of the generator leaves it, and what
    consuming the generator then does and yields.  The call itself, which
    runs nothing, and the statement as an object are in [Obj] below;
    [consume_created] relates the two. *)
Definition get_rows_from_statement (statement : Statement) (duplicates : bool)
    (keep_only_pmid : option string) : Statement * M (list Row) :=
  let statement :=
    set_evidence statement
      (List.filter (fun e => truthy (_keep_evidence e)) (evidence statement)) in
  if (0 =? length (evidence statement))%nat then
    (statement, ret [])
  else
    let statement :=
      match keep_only_pmid with
      | Some p =>
          set_evidence statement
            (List.filter (fun evidence => bool_decide (pmid evidence = Some p))
                         (evidence statement))
      | None => statement
      end in
    let statement :=
      if negb duplicates then set_evidence statement (take 1 (evidence statement))
      else statement in
    (statement, _get_rows_from_statement statement).

(** The generator consumed to its end, for statements that are distinct
    objects, given by their values; [Obj.consume_rows_from_statements] is
    the same on references, where an object may occur twice; see
    [consume_distinct_statements]. *)
Fixpoint get_rows_from_statements (statements : list Statement) (duplicates : bool)
    (keep_only_pmid : option string) : M (list Row) :=
  match statements with
  | [] => ret []
  | statement :: statements' =>
      rows ← (get_rows_from_statement statement duplicates keep_only_pmid).2;
      rows' ← get_rows_from_statements statements' duplicates keep_only_pmid;
      ret (rows ++ rows')%list
  end.

Definition print_statements {K} `{PyLt K} (statements : list Statement)
    (sep : option string) (limit : option Z) (duplicates : bool)
    (keep_only_pmid : option string) (sort_key : Row -> K)
    (minimum_belief : option PyFloat.float) : M unit :=
  let sep := or_default sep TAB in
  print header sep;;
  let statements := run_preassembly statements in
  let statements :=
    match minimum_belief with
    | Some cutoff => filter_belief statements cutoff
    | None => statements
    end in
  rows ← get_rows_from_statements statements duplicates keep_only_pmid;
  let rows := sorted rows sort_key in
  let rows :=
    match limit with
    | Some n => slice_to rows n
    | None => rows
    end in
  for_each rows (fun row => print (row_fields row) sep).

End IndraUtils.

(** ** Reference notions for the properties *)

(** [s] occurs in [bel]: some text before it and some after it make up [bel]. *)
Definition occurs_in (s bel : string) : Prop :=
  ∃ before after, bel = before +:+ s +:+ after.

(** The text of an edge carries one of the three blacklisted notations. *)
Definition has_blacklisted_substring (bel : string) : Prop :=
  occurs_in "CHEBI" bel ∨ occurs_in "PUBCHEM" bel ∨ occurs_in "act(bp(" bel.

(** The evidence that passes the blacklists, in order. *)
Definition kept_evidence (statement : Statement) : list Evidence :=
  List.filter (fun e => truthy (_keep_evidence e)) (evidence statement).

(** The evidence that also passes the optional document filter. *)
Definition matching_evidence (keep_only_pmid : option string) (statement : Statement)
    : list Evidence :=
  match keep_only_pmid with
  | Some p => List.filter (fun e => bool_decide (pmid e = Some p)) (kept_evidence statement)
  | None => kept_evidence statement
  end.

(** The world after one more call into a collaborator. *)
Definition logged (w : World) (cs : list call) : World :=
  {| calls := calls w ++ cs; output := output w |}.

(** The world after more lines of output. *)
Definition written (w : World) (lines : list string) : World :=
  {| calls := calls w; output := output w ++ lines |}.

(** The rows come out in ascending lexicographic order of (uuid, pmid):
    the uuid strictly smaller, or the same uuid and the pmid not larger. *)
Definition uuid_pmid_le (r1 r2 : Row) : Prop :=
  strict String.le (row_uuid r1) (row_uuid r2) ∨
  (row_uuid r1 = row_uuid r2 ∧ String.le (row_pmid r1) (row_pmid r2)).

(** The rows of a list whose sort key is [k], in the order of the list. *)
Definition with_key (k : string * string) (rows : list Row) : list Row :=
  List.filter (fun r => bool_decide (attrgetter_uuid_pmid r = k)) rows.

(** The data line of a row: its seven fields, separated. *)
Definition data_line (sep : string) (row : Row) : string :=
  row_uuid row +:+ sep +:+
  pretty (row_evidence_source_hash row) +:+ sep +:+
  PyFloat.repr (row_belief row) +:+ sep +:+
  row_pmid row +:+ sep +:+
  row_evidence row +:+ sep +:+
  row_api row +:+ sep +:+
  row_bel row.

(** The data line as the interface description gives it: six fields, the
    belief next to the uuid. *)
Definition described_data_line (sep : string) (row : Row) : string :=
  row_uuid row +:+ sep +:+
  PyFloat.repr (row_belief row) +:+ sep +:+
  row_pmid row +:+ sep +:+
  row_evidence row +:+ sep +:+
  row_api row +:+ sep +:+
  row_bel row.

(** The statements that reach row extraction. *)
Definition preassembled (run_preassembly : list Statement -> list Statement)
    (filter_belief : list Statement -> PyFloat.float -> list Statement)
    (minimum_belief : option PyFloat.float) (statements : list Statement)
    : list Statement :=
  match minimum_belief with
  | Some cutoff => filter_belief (run_preassembly statements) cutoff
  | None => run_preassembly statements
  end.

(** The rows that are written, of the sorted rows. *)
Definition limited {A} (limit : option Z) (rows : list A) : list A :=
  match limit with
  | Some n => slice_to rows n
  | None => rows
  end.

(** The exact value of a float as the fraction [exact_num x / exact_den x]
    (zero for the values that are not finite, which the properties exclude). *)
Definition exact_num (x : PyFloat.float) : Z :=
  match x with
  | S754_finite s m e => (if s then -1 else 1) * PyFloat.mag_num m e
  | _ => 0
  end.

Definition exact_den (x : PyFloat.float) : Z :=
  match x with
  | S754_finite _ _ e => PyFloat.mag_den e
  | _ => 1
  end.

(** A belief score: a binary64 number from [+0.0] to [1.0]. *)
Definition is_probability (x : PyFloat.float) : bool :=
  match x with
  | S754_zero s => negb s
  | S754_finite s m e =>
      negb s && bounded PyFloat.prec PyFloat.emax m e && PyFloat.le x PyFloat.one
  | _ => false
  end.

(** [k] hundredths written the short way: both decimals when the second one
    is not zero, otherwise one. *)
Definition hundredths_text (k : Z) : string :=
  pretty (k / 100) +:+ "." +:+ pretty (k / 10 mod 10) +:+
  (if k mod 10 =? 0 then "" else pretty (k mod 10)).

(** The characters after the decimal point of a numeral. *)
Fixpoint after_point (s : string) : option string :=
  match s with
  | EmptyString => None
  | String c s' => if String.eqb (String c EmptyString) "." then Some s' else after_point s'
  end.

Definition decimals (s : string) : option nat :=
  String.length <$> after_point s.

(** The check of one line of the table of hundredths. *)
Definition hundredth_ok (k : Z) : bool :=
  String.eqb (PyFloat.repr (PyFloat.strtod false k (-2))) (hundredths_text k) &&
  bool_decide (decimals (hundredths_text k) = Some (if k mod 10 =? 0 then 1%nat else 2%nat)).

(** ** Sample collaborators *)

(** An assembler that turns every evidence of its statements into one
    [increases] edge between two fixed proteins, and one that fails. *)
Definition sample_edges (statement : Statement) : list (string * string * EdgeData) :=
  map (fun e =>
         ("p(HGNC:1)", "p(HGNC:2)",
          {| RELATION := "increases";
             CITATION_IDENTIFIER := default "" (pmid e);
             EVIDENCE := default "" (text e);
             ANNOTATIONS := {| ann_source_hash := 42;
                               ann_source_api := default "" (source_api e) |} |}))
      (evidence statement).

Definition sample_unqualified : gset string := {[ "hasVariant"; "partOf"; "isA" ]}.

Definition sample_assembler (statements : list Statement) : outcome (list Statement) :=
  Returned statements.

Definition sample_make_model (pba : list Statement) : outcome (@BELGraph string) :=
  Returned {| edges := concat (map sample_edges pba) |}.

Definition failing_make_model (pba : list Statement) : outcome (@BELGraph string) :=
  Raised (AttributeError "'NoneType' object has no attribute 'name'").

Definition sample_edge_to_bel (graph : @BELGraph string) (u v : string) (data : EdgeData)
    (sep : string) (use_identifiers : bool) : string :=
  u +:+ sep +:+ RELATION data +:+ sep +:+ v.

Definition sample_filter_belief (statements : list Statement) (cutoff : PyFloat.float)
    : list Statement :=
  List.filter (fun s => PyFloat.le cutoff (belief s)) statements.

Definition sample_evidence : Evidence :=
  {| pmid := Some "111"; text := Some "valid text"; source_api := Some "reach" |}.

Definition unusable_evidence : Evidence :=
  {| pmid := None; text := Some "valid text"; source_api := Some "reach" |}.

Definition sample_statement : Statement :=
  {| uuid := "X"; belief := PyFloat.strtod false 955 (-3);
     evidence := [unusable_evidence; sample_evidence] |}.

Definition unusable_statement : Statement :=
  {| uuid := "Y"; belief := PyFloat.strtod false 5 (-1);
     evidence := [unusable_evidence] |}.

Definition sample_row : Row :=
  {| row_uuid := "X"; row_evidence_source_hash := 42;
     row_belief := PyFloat.strtod false 95 (-2);
     row_pmid := "111"; row_evidence := "valid text"; row_api := "reach";
     row_bel := "p(HGNC:1)" +:+ TAB +:+ "increases" +:+ TAB +:+ "p(HGNC:2)" |}.

Definition half_belief_statement : Statement :=
  {| uuid := "Y"; belief := PyFloat.strtod false 5 (-1);
     evidence := [sample_evidence] |}.

Definition half_belief_row : Row :=
  {| row_uuid := "Y"; row_evidence_source_hash := 42;
     row_belief := PyFloat.strtod false 5 (-1);
     row_pmid := "111"; row_evidence := "valid text"; row_api := "reach";
     row_bel := "p(HGNC:1)" +:+ TAB +:+ "increases" +:+ TAB +:+ "p(HGNC:2)" |}.

Definition empty_world : World := {| calls := []; output := [] |}.

(** [print_statements(statements, sep=sep, limit=limit)] with the sample
    collaborators, on an empty output. *)
Definition sample_run (statements : list Statement) (sep : option string)
    (limit : option Z) : outcome unit * World :=
  print_statements sample_unqualified sample_assembler sample_make_model
    sample_edge_to_bel (fun statements => statements) sample_filter_belief
    statements sep limit false None attrgetter_uuid_pmid None empty_world.

(** ** Further reference notions *)

(** The occurrences of a character in a string. *)
Fixpoint occurrences (c : Ascii.ascii) (s : string) : nat :=
  match s with
  | EmptyString => 0
  | String d s' => (if Ascii.eqb c d then 1 else 0) + occurrences c s'
  end.

(** The tab-separated columns of a line: one more than its tabs. *)
Definition columns (line : string) : nat :=
  S (occurrences (Ascii.ascii_of_nat 9) line).

(** The number of rows that the slice [rows[:N]] keeps of [total] rows: the
    first [min N total] for [0 <= N], all but the last [-N] otherwise. *)
Definition slice_count (N : Z) (total : nat) : nat :=
  if N <? 0 then (total - Z.to_nat (- N))%nat else Nat.min (Z.to_nat N) total.

(** The calls that construct an assembler, of a call log. *)
Definition is_constructor_call (c : call) : bool :=
  match c with
  | Call_PybelAssembler _ => true
  | Call_make_model _ => false
  end.

Definition constructor_calls (cs : list call) : list call :=
  List.filter is_constructor_call cs.

(** An assembler whose constructor fails, and a model builder that fails
    with something else than an AttributeError. *)
Definition failing_assembler (statements : list Statement) : outcome (list Statement) :=
  Raised (AttributeError "'NoneType' object has no attribute 'db_refs'").

Definition crashing_make_model (pba : list Statement) : outcome (@BELGraph string) :=
  Raised (OtherException "ValueError" "unhandled statement type").

(** A statement with two usable evidence entries from two documents. *)
Definition other_evidence : Evidence :=
  {| pmid := Some "222"; text := Some "other text"; source_api := Some "sparser" |}.

Definition two_evidence_statement : Statement :=
  {| uuid := "Z"; belief := PyFloat.strtod false 5 (-1);
     evidence := [sample_evidence; unusable_evidence; other_evidence] |}.

(** ** Retrieval: the two entry points *)

(** [str.strip()] on the UTF-8 encoding of a string. *)
Module PyStr.

Definition code_point (bytes : list nat) : list Ascii.ascii :=
  map Ascii.ascii_of_nat bytes.

(** The code points for which [str.isspace] holds, UTF-8 encoded: U+0009 to
    U+000D, U+001C to U+0020, U+0085, U+00A0, U+1680, U+2000 to U+200A,
    U+2028, U+2029, U+202F, U+205F and U+3000. *)
Definition WHITESPACE : list (list Ascii.ascii) :=
  map code_point
    [ [9]; [10]; [11]; [12]; [13]; [28]; [29]; [30]; [31]; [32];
      [194; 133]; [194; 160]; [225; 154; 128];
      [226; 128; 128]; [226; 128; 129]; [226; 128; 130]; [226; 128; 131];
      [226; 128; 132]; [226; 128; 133]; [226; 128; 134]; [226; 128; 135];
      [226; 128; 136]; [226; 128; 137]; [226; 128; 138];
      [226; 128; 168]; [226; 128; 169]; [226; 128; 175];
      [226; 129; 159]; [227; 128; 128] ]%nat.

(** [l] without the prefix [p], when it starts with it. *)
Fixpoint drop_prefix (p l : list Ascii.ascii) : option (list Ascii.ascii) :=
  match p, l with
  | [], _ => Some l
  | c :: p', d :: l' => if Ascii.eqb c d then drop_prefix p' l' else None
  | _ :: _, [] => None
  end.

(** [l] without the first of the sequences [seqs] that it starts with. *)
Fixpoint drop_first (seqs : list (list Ascii.ascii)) (l : list Ascii.ascii)
    : option (list Ascii.ascii) :=
  match seqs with
  | [] => None
  | p :: seqs' =>
      match drop_prefix p l with
      | Some l' => Some l'
      | None => drop_first seqs' l
      end
  end.

(** The scan from the left: code points are dropped while they are among
    [seqs]; [fuel] bounds the number of steps. *)
Fixpoint lstrip_with (seqs : list (list Ascii.ascii)) (fuel : nat) (l : list Ascii.ascii)
    : list Ascii.ascii :=
  match fuel with
  | O => l
  | S fuel' =>
      match drop_first seqs l with
      | Some l' => lstrip_with seqs fuel' l'
      | None => l
      end
  end.

Definition lstrip (l : list Ascii.ascii) : list Ascii.ascii :=
  lstrip_with WHITESPACE (length l) l.

(** The scan from the right is the scan from the left of the reversed
    bytes, for the reversed encodings. *)
Definition rstrip (l : list Ascii.ascii) : list Ascii.ascii :=
  reverse (lstrip_with (map reverse WHITESPACE) (length l) (reverse l)).

Definition strip (s : string) : string :=
  String.string_of_list_ascii (rstrip (lstrip (String.list_ascii_of_string s))).

End PyStr.

(** An argument of type [Union[str, List[str]]]. *)
Inductive str_or_list :=
| Str (s : string)
| Strs (l : list string).

(** The strings it stands for: a single string is the list of that string. *)
Definition as_list (arg : str_or_list) : list string :=
  match arg with
  | Str s => [s]
  | Strs l => l
  end.

(** The identifiers [get_and_write_statements_from_pmids] asks for. *)
Definition paper_ids (pmids : str_or_list) : list (string * string) :=
  match pmids with
  | Str pmids => [("pmid", PyStr.strip pmids)]
  | Strs pmids => map (fun pmid => ("pmid", PyStr.strip pmid)) pmids
  end.

(** ** Statement objects and generators

    [get_rows_from_statement] and [_get_rows_from_statement] are generator
    functions and statements are objects that are changed in place.  Here a
    statement is a reference into a store of objects, a call of a generator
    function creates a generator without running any of its body, and the
    body runs when the generator is advanced. *)

Module Obj.

(** A reference to a statement object. *)
Definition ref : Type := nat.

(** The statement objects, by reference, and the world. *)
Record Store := {
  heap : ref -> Statement;
  world : World;
}.

Definition with_world (σ : Store) (w : World) : Store :=
  {| heap := heap σ; world := w |}.

(** [statement.evidence = ev] on the object, also [del statement.evidence[1:]]
    with [ev] the first entry. *)
Definition assign_evidence (statement : ref) (ev : list Evidence) (σ : Store) : Store :=
  {| heap := <[statement := set_evidence (heap σ statement) ev]> (heap σ);
     world := world σ |}.

Section Generators.

Context {Node Assembler : Type}.
Variable UNQUALIFIED_EDGES : gset string.
Variable PybelAssembler : list Statement -> outcome Assembler.
Variable make_model : Assembler -> outcome (@BELGraph Node).
Variable edge_to_bel : @BELGraph Node -> Node -> Node -> EdgeData -> string -> bool -> string.

(** A generator of [get_rows_from_statement]: created and not advanced yet,
    suspended at the [yield] in the loop of [_get_rows_from_statement] with
    the edges still to visit, or finished. *)
Inductive generator :=
| Created (statement : ref) (duplicates : bool) (keep_only_pmid : option string)
| Suspended (statement : ref) (graph : @BELGraph Node)
            (es : list (Node * Node * EdgeData))
| Finished.

(** What advancing a generator gives: a row, [None] for StopIteration, or an
    exception; the generator and the store after it. *)
Definition advance : Type := outcome (option Row) * generator * Store.

(** The loop of [_get_rows_from_statement] from the edges [es] on, up to its
    next [yield]; the uuid and the belief are read from the object then. *)
Fixpoint resume (statement : ref) (graph : @BELGraph Node)
    (es : list (Node * Node * EdgeData)) (σ : Store) : advance :=
  match es with
  | [] => (Returned None, Finished, σ)
  | (u, v, data) :: es' =>
      if bool_decide (RELATION data ∈ UNQUALIFIED_EDGES) then
        resume statement graph es' σ
      else
        let bel := edge_to_bel graph u v data TAB true in
        if blacklisted bel then
          resume statement graph es' σ
        else
          (Returned
             (Some {| row_uuid := uuid (heap σ statement);
                      row_evidence_source_hash := ann_source_hash (ANNOTATIONS data);
                      row_belief := PyFloat.round (belief (heap σ statement)) 2;
                      row_pmid := CITATION_IDENTIFIER data;
                      row_evidence := EVIDENCE data;
                      row_api := ann_source_api (ANNOTATIONS data);
                      row_bel := bel |}),
           Suspended statement graph es', σ)
  end.

(** The first advance of [_get_rows_from_statement(statement)]: the graph
    is assembled from the object as it is, then the loop starts. *)
Definition _get_rows_from_statement (statement : ref) (σ : Store) : advance :=
  match get_graph_from_statement PybelAssembler make_model (heap σ statement) (world σ) with
  | (Returned graph, w) => resume statement graph (edges graph) (with_world σ w)
  | (Raised e, w) => (Raised e, Finished, with_world σ w)
  end.

(** The call [get_rows_from_statement(statement, duplicates, keep_only_pmid)]:
    it creates the generator and runs nothing of the body. *)
Definition get_rows_from_statement (statement : ref) (duplicates : bool)
    (keep_only_pmid : option string) (σ : Store) : generator * Store :=
  (Created statement duplicates keep_only_pmid, σ).

(** The first advance of that generator: the body of
    [get_rows_from_statement], which ends in [return iter([])] or hands over
    to [_get_rows_from_statement(statement)]. *)
Definition start (statement : ref) (duplicates : bool) (keep_only_pmid : option string)
    (σ : Store) : advance :=
  let σ :=
    assign_evidence statement
      (List.filter (fun e => truthy (_keep_evidence e)) (evidence (heap σ statement))) σ in
  if (0 =? length (evidence (heap σ statement)))%nat then
    (Returned None, Finished, σ)
  else
    let σ :=
      match keep_only_pmid with
      | Some p =>
          assign_evidence statement
            (List.filter (fun evidence => bool_decide (pmid evidence = Some p))
                         (evidence (heap σ statement))) σ
      | None => σ
      end in
    let σ :=
      if negb duplicates then
        assign_evidence statement (take 1 (evidence (heap σ statement))) σ
      else σ in
    _get_rows_from_statement statement σ.

(** [next(g)] *)
Definition next (g : generator) (σ : Store) : advance :=
  match g with
  | Created statement duplicates keep_only_pmid =>
      start statement duplicates keep_only_pmid σ
  | Suspended statement graph es => resume statement graph es σ
  | Finished => (Returned None, Finished, σ)
  end.

(** [g] advanced until it stops or raises: the rows it yielded, or the
    exception, and the store after it. *)
Inductive consumes : generator -> Store -> outcome (list Row) -> Store -> Prop :=
| consumes_stop g σ g' σ' :
    next g σ = (Returned None, g', σ') -> consumes g σ (Returned []) σ'
| consumes_raise g σ e g' σ' :
    next g σ = (Raised e, g', σ') -> consumes g σ (Raised e) σ'
| consumes_yield g σ row g' σ' rows σ'' :
    next g σ = (Returned (Some row), g', σ') ->
    consumes g' σ' (Returned rows) σ'' ->
    consumes g σ (Returned (row :: rows)) σ''
| consumes_yield_raise g σ row g' σ' e σ'' :
    next g σ = (Returned (Some row), g', σ') ->
    consumes g' σ' (Raised e) σ'' ->
    consumes g σ (Raised e) σ''.

(** At most [fuel] advances of [g]. *)
Fixpoint exhaust (fuel : nat) (g : generator) (σ : Store) : outcome (list Row) * Store :=
  match fuel with
  | O => (Returned [], σ)
  | S fuel' =>
      match next g σ with
      | (Returned (Some row), g', σ') =>
          match exhaust fuel' g' σ' with
          | (Returned rows, σ'') => (Returned (row :: rows), σ'')
          | (Raised e, σ'') => (Raised e, σ'')
          end
      | (Returned None, _, σ') => (Returned [], σ')
      | (Raised e, _, σ') => (Raised e, σ')
      end
  end.

(** A generator that has been advanced. *)
Definition started (g : generator) : Prop :=
  match g with
  | Created _ _ _ => False
  | _ => True
  end.

(** The advances a started generator can still take. *)
Definition steps_left (g : generator) : nat :=
  match g with
  | Suspended _ _ es => S (length es)
  | _ => 1
  end.

(** [list(g)]: the generator is advanced once and then for as many steps as
    it has left; this is [consumes], see [consume_consumes]. *)
Definition consume (g : generator) (σ : Store) : outcome (list Row) * Store :=
  match next g σ with
  | (Returned (Some row), g', σ') =>
      match exhaust (steps_left g') g' σ' with
      | (Returned rows, σ'') => (Returned (row :: rows), σ'')
      | (Raised e, σ'') => (Raised e, σ'')
      end
  | (Returned None, _, σ') => (Returned [], σ')
  | (Raised e, _, σ') => (Raised e, σ')
  end.

(** [get_rows_from_statements(statements, duplicates, keep_only_pmid)]
    consumed to its end, as [sorted] does: for each statement in turn the
    generator of [get_rows_from_statement] is created and consumed. *)
Fixpoint consume_rows_from_statements (statements : list ref) (duplicates : bool)
    (keep_only_pmid : option string) (σ : Store) : outcome (list Row) * Store :=
  match statements with
  | [] => (Returned [], σ)
  | statement :: statements' =>
      let '(g, σ) := get_rows_from_statement statement duplicates keep_only_pmid σ in
      match consume g σ with
      | (Returned rows, σ') =>
          match consume_rows_from_statements statements' duplicates keep_only_pmid σ' with
          | (Returned rows', σ'') => (Returned (rows ++ rows')%list, σ'')
          | (Raised e, σ'') => (Raised e, σ'')
          end
      | (Raised e, σ') => (Raised e, σ')
      end
  end.

(** Modelled from the spec: the collaborators that receive and return lists
    of statement objects; they may create objects and change them.
    [run_preassembly(statements)], [filter_belief(statements, cutoff)],
    [indra_db_rest.get_statements(agents=agents).statements] and
    [indra_db_rest.get_statements_for_paper(ids=ids, simple_response=True)];
    the last two return the statements or raise. *)
Variable run_preassembly : list ref -> (ref -> Statement) -> list ref * (ref -> Statement).
Variable filter_belief :
  list ref -> PyFloat.float -> (ref -> Statement) -> list ref * (ref -> Statement).
Variable get_statements :
  list string -> (ref -> Statement) -> outcome (list ref) * (ref -> Statement).
Variable get_statements_for_paper :
  list (string * string) -> (ref -> Statement) -> outcome (list ref) * (ref -> Statement).

Definition print_statements {K} `{PyLt K} (statements : list ref)
    (sep : option string) (limit : option Z) (duplicates : bool)
    (keep_only_pmid : option string) (sort_key : Row -> K)
    (minimum_belief : option PyFloat.float) (σ : Store) : outcome unit * Store :=
  let sep := or_default sep TAB in
  let σ := with_world σ (print header sep (world σ)).2 in
  let '(statements, h) := run_preassembly statements (heap σ) in
  let '(statements, h) :=
    match minimum_belief with
    | Some cutoff => filter_belief statements cutoff h
    | None => (statements, h)
    end in
  match consume_rows_from_statements statements duplicates keep_only_pmid
          {| heap := h; world := world σ |} with
  | (Returned rows, σ) =>
      let rows := sorted rows sort_key in
      let rows :=
        match limit with
        | Some n => slice_to rows n
        | None => rows
        end in
      let '(r, w) := for_each rows (fun row => print (row_fields row) sep) (world σ) in
      (r, with_world σ w)
  | (Raised e, σ) => (Raised e, σ)
  end.

(** The list returned is the list of objects retrieved. *)
Definition get_and_write_statements_from_agents (agents : str_or_list)
    (sep : option string) (limit : option Z) (duplicates : bool)
    (minimum_belief : option PyFloat.float) (σ : Store) : outcome (list ref) * Store :=
  let agents :=
    match agents with
    | Str agents => [agents]
    | Strs agents => agents
    end in
  match get_statements agents (heap σ) with
  | (Returned statements, h) =>
      match print_statements statements sep limit duplicates None
              attrgetter_uuid_pmid minimum_belief {| heap := h; world := world σ |} with
      | (Returned _, σ) => (Returned statements, σ)
      | (Raised e, σ) => (Raised e, σ)
      end
  | (Raised e, h) => (Raised e, {| heap := h; world := world σ |})
  end.

Definition get_and_write_statements_from_pmids (pmids : str_or_list)
    (sep : option string) (limit : option Z) (duplicates : bool)
    (keep_only_pmid : option string) (minimum_belief : option PyFloat.float)
    (σ : Store) : outcome (list ref) * Store :=
  let ids := paper_ids pmids in
  match get_statements_for_paper ids (heap σ) with
  | (Returned statements, h) =>
      match print_statements statements sep limit duplicates keep_only_pmid
              attrgetter_uuid_pmid minimum_belief {| heap := h; world := world σ |} with
      | (Returned _, σ) => (Returned statements, σ)
      | (Raised e, σ) => (Raised e, σ)
      end
  | (Raised e, h) => (Raised e, {| heap := h; world := world σ |})
  end.

(** The statements that reach row extraction, and the objects then. *)
Definition preassembled (minimum_belief : option PyFloat.float) (statements : list ref)
    (h : ref -> Statement) : list ref * (ref -> Statement) :=
  let '(statements, h) := run_preassembly statements h in
  match minimum_belief with
  | Some cutoff => filter_belief statements cutoff h
  | None => (statements, h)
  end.

End Generators.

End Obj.

(** A run of code points that count as whitespace. *)
Definition whitespace_run (l : list Ascii.ascii) : Prop :=
  ∃ code_points, Forall (fun cp => cp ∈ PyStr.WHITESPACE) code_points ∧
                 l = concat code_points.

(** [l] starts, or ends, with a code point that counts as whitespace. *)
Definition starts_with_whitespace (l : list Ascii.ascii) : Prop :=
  ∃ cp rest, cp ∈ PyStr.WHITESPACE ∧ l = (cp ++ rest)%list.

Definition ends_with_whitespace (l : list Ascii.ascii) : Prop :=
  ∃ cp rest, cp ∈ PyStr.WHITESPACE ∧ l = (rest ++ cp)%list.

(** [stripped] is [given] without the whitespace around it. *)
Definition stripped_of (given stripped : string) : Prop :=
  ∃ lead trail,
    whitespace_run lead ∧ whitespace_run trail ∧
    String.list_ascii_of_string given =
      (lead ++ String.list_ascii_of_string stripped ++ trail)%list ∧
    ¬ starts_with_whitespace (String.list_ascii_of_string stripped) ∧
    ¬ ends_with_whitespace (String.list_ascii_of_string stripped).

(** A store of three objects (every other reference is an object without
    usable evidence), a retrieval service that knows them, one that is
    down, and collaborators that hand the objects on. *)
Definition sample_store : Obj.Store :=
  {| Obj.heap := fun r =>
       match r with
       | O => half_belief_statement
       | S O => sample_statement
       | S (S O) => two_evidence_statement
       | _ => unusable_statement
       end;
     Obj.world := empty_world |}.

Definition sample_get_statements (agents : list string) (h : Obj.ref -> Statement)
    : outcome (list Obj.ref) * (Obj.ref -> Statement) :=
  (Returned [0; 1]%nat, h).

Definition sample_get_statements_for_paper (ids : list (string * string))
    (h : Obj.ref -> Statement) : outcome (list Obj.ref) * (Obj.ref -> Statement) :=
  (Returned
     (List.filter
        (fun r => existsb (fun e => existsb (fun id => bool_decide (pmid e = Some id.2)) ids)
                          (evidence (h r)))
        [1; 2]%nat),
   h).

Definition failing_service {A} (query : A) (h : Obj.ref -> Statement)
    : outcome (list Obj.ref) * (Obj.ref -> Statement) :=
  (Raised (OtherException "IndraDBRestAPIError" "502 Bad Gateway"), h).

Definition sample_run_preassembly (statements : list Obj.ref) (h : Obj.ref -> Statement)
    : list Obj.ref * (Obj.ref -> Statement) :=
  (statements, h).

Definition sample_filter_belief_objects (statements : list Obj.ref) (cutoff : PyFloat.float)
    (h : Obj.ref -> Statement) : list Obj.ref * (Obj.ref -> Statement) :=
  (List.filter (fun r => PyFloat.le cutoff (belief (h r))) statements, h).

Definition other_row : Row :=
  {| row_uuid := "Z"; row_evidence_source_hash := 42;
     row_belief := PyFloat.strtod false 5 (-1);
     row_pmid := "222"; row_evidence := "other text"; row_api := "sparser";
     row_bel := "p(HGNC:1)" +:+ TAB +:+ "increases" +:+ TAB +:+ "p(HGNC:2)" |}.

(** * Properties *)

(** ** The evidence filter *)

Lemma truthy_of_opt o : truthy (of_opt o) = true ↔ present o.
Proof.
  destruct o as [s|]; simpl.
  - rewrite negb_true_iff. split.
    + intros H. exists s. split; [done|]. intros ->. by rewrite String.eqb_refl in H.
    + intros (s' & [= <-] & Hne). by apply String.eqb_neq.
  - split; [done|]. by intros (s & ? & _).
Qed.

Lemma truthy_not_in o S : truthy (not_in (of_opt o) S) = true ↔ ¬ opt_in o S.
Proof.
  destruct o as [s|]; simpl.
  - rewrite negb_true_iff, bool_decide_eq_false. split.
    + by intros H (s' & [= <-] & Hin).
    + intros H Hin. apply H. by exists s.
  - split; [|done]. by intros _ (s & ? & _).
Qed.

Lemma truthy_py_and a b :
  truthy (py_and a b) = true ↔ truthy a = true ∧ truthy (b tt) = true.
Proof.
  unfold py_and. destruct (truthy a) eqn:Ha.
  - split; [by intros ? | by intros [_ ?]].
  - rewrite Ha. split; [done | by intros [? _]].
Qed.

(** C1: the evidence filter is truthy exactly when pmid, text and source_api
    are all present and neither the text nor the source is blacklisted. *)
Theorem keep_evidence_iff (evidence : Evidence) :
  truthy (_keep_evidence evidence) = true ↔
    present (pmid evidence) ∧
    present (text evidence) ∧
    ¬ opt_in (text evidence) TEXT_BLACKLIST ∧
    present (source_api evidence) ∧
    ¬ opt_in (source_api evidence) SOURCE_BLACKLIST.
Proof.
  unfold _keep_evidence.
  rewrite !truthy_py_and, !truthy_of_opt, !truthy_not_in. done.
Qed.

(** ** Row extraction from one statement *)

Section RowExtraction.

Context {Node Assembler : Type}.
Variable UNQUALIFIED_EDGES : gset string.
Variable PybelAssembler : list Statement -> outcome Assembler.
Variable make_model : Assembler -> outcome (@BELGraph Node).
Variable edge_to_bel : @BELGraph Node -> Node -> Node -> EdgeData -> string -> bool -> string.

Local Abbreviation get_graph := (get_graph_from_statement PybelAssembler make_model).
Local Abbreviation get_rows' :=
  (_get_rows_from_statement UNQUALIFIED_EDGES PybelAssembler make_model edge_to_bel).
Local Abbreviation get_rows :=
  (get_rows_from_statement UNQUALIFIED_EDGES PybelAssembler make_model edge_to_bel).

Lemma filter_none {A} (f : A -> bool) (l : list A) :
  (∀ x, In x l -> f x = false) -> List.filter f l = [].
Proof.
  induction l as [|x l IH]; simpl; [done|].
  intros H. rewrite (H x) by by left. apply IH. intros y Hy. apply H. by right.
Qed.

(** The function, one case per path through its body. *)
Lemma get_rows_from_statement_short (statement : Statement) (duplicates : bool)
    (keep_only_pmid : option string) :
  kept_evidence statement = [] ->
  get_rows statement duplicates keep_only_pmid = (set_evidence statement [], ret (@nil Row)).
Proof.
  intros Hkept. unfold get_rows_from_statement. simpl.
  fold (kept_evidence statement). by rewrite Hkept.
Qed.

Lemma get_rows_from_statement_long (statement : Statement) (duplicates : bool)
    (keep_only_pmid : option string) :
  kept_evidence statement ≠ [] ->
  let statement' :=
    set_evidence statement
      (if duplicates then matching_evidence keep_only_pmid statement
       else take 1 (matching_evidence keep_only_pmid statement)) in
  get_rows statement duplicates keep_only_pmid = (statement', get_rows' statement').
Proof.
  intros Hkept. unfold get_rows_from_statement, matching_evidence.
  cbn [evidence set_evidence]. fold (kept_evidence statement).
  destruct (kept_evidence statement) as [|e kept]; [done|].
  by destruct keep_only_pmid, duplicates.
Qed.

(** C3: when no evidence passes the filter, the statement is left with no
    evidence, no rows are yielded and the world, so the log of assembler
    calls, is as before; this holds whatever the assembler would do. *)
Theorem no_kept_evidence_no_rows (statement : Statement) (duplicates : bool)
    (keep_only_pmid : option string) (w : World) :
  List.filter (fun e => truthy (_keep_evidence e)) (evidence statement) = [] ->
  evidence (get_rows statement duplicates keep_only_pmid).1 = [] ∧
  (get_rows statement duplicates keep_only_pmid).2 w = (Returned [], w) ∧
  calls ((get_rows statement duplicates keep_only_pmid).2 w).2 = calls w.
Proof.
  intros Hkept. by rewrite get_rows_from_statement_short.
Qed.

Lemma get_graph_from_statement_run (statement : Statement) (w : World) :
  get_graph statement w =
    match PybelAssembler [statement] with
    | Raised e => (Raised e, logged w [Call_PybelAssembler [statement]])
    | Returned pba =>
        let w' := logged w [Call_PybelAssembler [statement]; Call_make_model [statement]] in
        match make_model pba with
        | Returned graph => (Returned graph, w')
        | Raised e => if is_AttributeError e then (Returned BELGraph_new, w') else (Raised e, w')
        end
    end.
Proof.
  unfold get_graph_from_statement, mbind, M_bind, bind, invoke, try_except, logged.
  destruct (PybelAssembler [statement]) as [pba|e]; simpl; [|done].
  rewrite <- app_assoc. simpl.
  destruct (make_model pba) as [graph|e]; [done|].
  by destruct e.
Qed.

(** C7: when building the model raises an AttributeError the statement gets
    the empty graph and yields no rows; any other exception is raised to the
    caller as it is. *)
Theorem make_model_error_handling (statement : Statement) (pba : Assembler) (e : exn)
    (w : World) :
  PybelAssembler [statement] = Returned pba ->
  make_model pba = Raised e ->
  let w' := logged w [Call_PybelAssembler [statement]; Call_make_model [statement]] in
  match e with
  | AttributeError _ =>
      get_graph statement w = (Returned BELGraph_new, w') ∧
      edges (@BELGraph_new Node) = [] ∧
      get_rows' statement w = (Returned [], w')
  | OtherException _ _ =>
      get_graph statement w = (Raised e, w') ∧
      get_rows' statement w = (Raised e, w')
  end.
Proof.
  intros Hpba Hmodel. simpl.
  unfold _get_rows_from_statement, mbind, M_bind, bind.
  rewrite get_graph_from_statement_run, Hpba, Hmodel. simpl.
  by destruct e.
Qed.

(** C10: when some evidence passes the blacklists but none is from the
    document asked for, the statement is left without evidence and the
    assembler is still called on it. *)
Theorem pmid_filter_empty_still_assembles (statement : Statement) (duplicates : bool)
    (p : string) (w : World) :
  (∃ e, e ∈ evidence statement ∧ truthy (_keep_evidence e) = true) ->
  (∀ e, e ∈ evidence statement -> truthy (_keep_evidence e) = true -> pmid e ≠ Some p) ->
  let after := (get_rows statement duplicates (Some p)).1 in
  let rows := (get_rows statement duplicates (Some p)).2 in
  evidence after = [] ∧
  rows = get_rows' after ∧
  ∃ cs, calls (rows w).2 = (calls w ++ Call_PybelAssembler [after] :: cs)%list.
Proof.
  intros (e & Hin & Hkeep) Hnone.
  assert (Hkept : kept_evidence statement ≠ []).
  { intros Hnil. assert (He : In e (kept_evidence statement)).
    { apply filter_In. split; [by apply list_elem_of_In|done]. }
    by rewrite Hnil in He. }
  assert (Hmatch : matching_evidence (Some p) statement = []).
  { apply filter_none. intros e' [He' Hk']%filter_In.
    apply bool_decide_eq_false, Hnone; [by apply list_elem_of_In|done]. }
  rewrite get_rows_from_statement_long by done. rewrite Hmatch.
  assert (Hev : (if duplicates then [] else take 1 []) = @nil Evidence)
    by by destruct duplicates.
  rewrite Hev. simpl. repeat split.
  unfold _get_rows_from_statement, mbind, M_bind, bind.
  rewrite get_graph_from_statement_run.
  destruct (PybelAssembler _) as [pba|e1]; simpl; [|by eexists].
  destruct (make_model pba) as [graph|e2]; simpl; [by eexists|].
  destruct (is_AttributeError e2); by eexists.
Qed.

(** *** The substring blacklist *)

Lemma startswith_spec (bel s : string) :
  startswith bel s = true ↔ ∃ after, bel = s +:+ after.
Proof.
  revert bel. induction s as [|c s IH]; intros bel; simpl.
  - split; [by exists bel|done].
  - destruct bel as [|d bel].
    + split; [done|]. by intros [after ?].
    + rewrite andb_true_iff, IH, Ascii.eqb_eq. split.
      * intros [-> [after ->]]. by exists after.
      * intros [after [= -> ->]]. split; [done|by exists after].
Qed.

Lemma contains_spec (bel s : string) : contains bel s = true ↔ occurs_in s bel.
Proof.
  unfold occurs_in. induction bel as [|d bel IH]; simpl.
  - rewrite orb_false_r, startswith_spec. split.
    + intros [after ->]. by exists "", after.
    + intros (before & after & H). destruct before; [by exists after|done].
  - rewrite orb_true_iff, IH, startswith_spec. split.
    + intros [[after ->]|(before & after & ->)].
      * by exists "", after.
      * by exists (String d before), after.
    + intros (before & after & H). destruct before as [|c before].
      * left. by exists after.
      * right. injection H as -> ->. by exists before, after.
Qed.

Lemma in_substring_blacklist (s : string) :
  In s (elements SUBSTRING_BLACKLIST) ↔ s = "CHEBI" ∨ s = "PUBCHEM" ∨ s = "act(bp(".
Proof.
  rewrite <- list_elem_of_In, elem_of_elements. unfold SUBSTRING_BLACKLIST.
  rewrite !elem_of_union, !elem_of_singleton. tauto.
Qed.

Lemma blacklisted_spec (bel : string) :
  blacklisted bel = true ↔ has_blacklisted_substring bel.
Proof.
  unfold blacklisted, has_blacklisted_substring. rewrite existsb_exists. split.
  - intros (s & Hin & Hs). apply contains_spec in Hs.
    destruct (proj1 (in_substring_blacklist s) Hin) as [-> | [-> | ->]]; auto.
  - intros [H | [H | H]]; apply contains_spec in H;
      (eexists; split; [apply (proj2 (in_substring_blacklist _))|exact H]); auto.
Qed.

Lemma rows_of_edges_app (statement : Statement) (graph : BELGraph)
    (es1 es2 : list (Node * Node * EdgeData)) :
  rows_of_edges UNQUALIFIED_EDGES edge_to_bel statement graph (es1 ++ es2)%list =
  (rows_of_edges UNQUALIFIED_EDGES edge_to_bel statement graph es1 ++
   rows_of_edges UNQUALIFIED_EDGES edge_to_bel statement graph es2)%list.
Proof.
  induction es1 as [|[[u v] data] es1 IH]; simpl; [done|].
  repeat case_match; by rewrite IH.
Qed.

(** When the model is built, the rows are those of the edges of its graph. *)
Lemma get_rows_of_built_graph (statement : Statement) (pba : Assembler)
    (graph : BELGraph) (w : World) :
  PybelAssembler [statement] = Returned pba ->
  make_model pba = Returned graph ->
  get_rows' statement w =
    (Returned (rows_of_edges UNQUALIFIED_EDGES edge_to_bel statement graph (edges graph)),
     logged w [Call_PybelAssembler [statement]; Call_make_model [statement]]).
Proof.
  intros Hpba Hmodel.
  unfold _get_rows_from_statement, mbind, M_bind, bind.
  by rewrite get_graph_from_statement_run, Hpba, Hmodel.
Qed.

(** C5: [_get_rows_from_statement] returns, for the graph that the assembler
    built, the rows of its edges in order, each edge contributing on its
    own: nothing when its text carries CHEBI, PUBCHEM or act(bp( and exactly
    one row, with that text, when it carries none of them and its relation
    is qualified. *)
Theorem substring_blacklist_rows (statement : Statement) (pba : Assembler)
    (graph : BELGraph) (es1 es2 : list (Node * Node * EdgeData)) (u v : Node)
    (data : EdgeData) (w : World) :
  PybelAssembler [statement] = Returned pba ->
  make_model pba = Returned graph ->
  edges graph = (es1 ++ (u, v, data) :: es2)%list ->
  let bel := edge_to_bel graph u v data TAB true in
  ∃ contribution,
    get_rows' statement w =
      (Returned
         (rows_of_edges UNQUALIFIED_EDGES edge_to_bel statement graph es1 ++ contribution ++
          rows_of_edges UNQUALIFIED_EDGES edge_to_bel statement graph es2)%list,
       logged w [Call_PybelAssembler [statement]; Call_make_model [statement]]) ∧
    (has_blacklisted_substring bel -> contribution = []) ∧
    (¬ has_blacklisted_substring bel -> RELATION data ∉ UNQUALIFIED_EDGES ->
     ∃ row, contribution = [row] ∧ row_bel row = bel ∧ row_uuid row = uuid statement).
Proof.
  intros Hpba Hmodel Hedges bel.
  exists (rows_of_edges UNQUALIFIED_EDGES edge_to_bel statement graph [(u, v, data)]).
  split; [|split].
  - rewrite (get_rows_of_built_graph statement pba graph w Hpba Hmodel), Hedges.
    rewrite rows_of_edges_app. do 3 f_equal.
    change ((u, v, data) :: es2) with ([(u, v, data)] ++ es2)%list.
    apply rows_of_edges_app.
  - intros Hbad%blacklisted_spec. simpl. fold bel. rewrite Hbad. by case_bool_decide.
  - intros Hgood Hrel. simpl. fold bel.
    rewrite bool_decide_eq_false_2 by exact Hrel.
    destruct (blacklisted bel) eqn:Hb.
    + exfalso. apply Hgood, blacklisted_spec. exact Hb.
    + eexists. split; [reflexivity|]. split; reflexivity.
Qed.

End RowExtraction.

Lemma substring_blacklist_rows_witness :
  ∃ row,
    _get_rows_from_statement sample_unqualified sample_assembler sample_make_model
      sample_edge_to_bel (set_evidence sample_statement [sample_evidence]) empty_world =
    (Returned [row],
     logged empty_world
       [Call_PybelAssembler [set_evidence sample_statement [sample_evidence]];
        Call_make_model [set_evidence sample_statement [sample_evidence]]]) ∧
    row_bel row = "p(HGNC:1)" +:+ TAB +:+ "increases" +:+ TAB +:+ "p(HGNC:2)".
Proof.
  destruct (substring_blacklist_rows sample_unqualified sample_assembler sample_make_model
              sample_edge_to_bel (set_evidence sample_statement [sample_evidence])
              [set_evidence sample_statement [sample_evidence]]
              {| edges := sample_edges (set_evidence sample_statement [sample_evidence]) |}
              [] [] "p(HGNC:1)" "p(HGNC:2)"
              {| RELATION := "increases"; CITATION_IDENTIFIER := "111";
                 EVIDENCE := "valid text";
                 ANNOTATIONS := {| ann_source_hash := 42; ann_source_api := "reach" |} |}
              empty_world)
    as (contribution & Hrun & _ & Hone).
  - reflexivity.
  - vm_compute. reflexivity.
  - reflexivity.
  - destruct Hone as (row & -> & Hbel & _).
    + intros Hbad%blacklisted_spec. vm_compute in Hbad. discriminate.
    + intros Hin%(bool_decide_pack _). vm_compute in Hin. destruct Hin.
    + exists row. split; [exact Hrun|exact Hbel].
Defined.

Lemma no_kept_evidence_no_rows_witness :
  List.filter (fun e => truthy (_keep_evidence e)) (evidence unusable_statement) = [] ∧
  (get_rows_from_statement sample_unqualified sample_assembler sample_make_model
     sample_edge_to_bel unusable_statement false None).2 empty_world
    = (Returned [], empty_world).
Proof.
  split; [reflexivity|].
  apply (no_kept_evidence_no_rows sample_unqualified sample_assembler sample_make_model
           sample_edge_to_bel unusable_statement false None empty_world).
  reflexivity.
Defined.

Lemma make_model_error_handling_witness :
  get_graph_from_statement sample_assembler failing_make_model sample_statement empty_world
    = (Returned BELGraph_new,
       logged empty_world [Call_PybelAssembler [sample_statement];
                           Call_make_model [sample_statement]]).
Proof.
  apply (make_model_error_handling sample_unqualified sample_assembler failing_make_model
           sample_edge_to_bel sample_statement [sample_statement]
           (AttributeError "'NoneType' object has no attribute 'name'") empty_world);
    reflexivity.
Defined.

Lemma pmid_filter_empty_still_assembles_witness :
  evidence (get_rows_from_statement sample_unqualified sample_assembler sample_make_model
              sample_edge_to_bel sample_statement false (Some "222")).1 = [].
Proof.
  apply (pmid_filter_empty_still_assembles sample_unqualified sample_assembler
           sample_make_model sample_edge_to_bel sample_statement false "222" empty_world).
  - exists sample_evidence. split; [|vm_compute; reflexivity].
    apply elem_of_cons. right. apply elem_of_cons. by left.
  - intros e He _. apply list_elem_of_In in He.
    destruct He as [<-|[<-|[]]]; discriminate.
Defined.

(** ** Sorting *)

Section Sorting.

Context {A K : Type} `{PyLt K} (key : A -> K).

Lemma insert_by_perm (x : A) (l : list A) : insert_by key x l ≡ₚ x :: l.
Proof.
  induction l as [|y l IH]; simpl; [done|].
  destruct (py_lt (key y) (key x)); [|done].
  rewrite IH. apply perm_swap.
Qed.

Lemma sorted_perm (l : list A) : sorted l key ≡ₚ l.
Proof.
  induction l as [|x l IH]; simpl; [done|].
  unfold sorted in *. simpl. by rewrite insert_by_perm, IH.
Qed.

(** Insertion never moves an element past one that a predicate pairs it
    with, provided paired elements do not compare smaller. *)
Lemma insert_by_filter (P : A -> bool) (x : A) (l : list A) :
  (∀ y, P y = true -> P x = true -> py_lt (key y) (key x) = false) ->
  List.filter P (insert_by key x l) = List.filter P (x :: l).
Proof.
  intros Hirr. induction l as [|y l IH]; [done|].
  cbn [insert_by]. destruct (py_lt (key y) (key x)) eqn:Hlt; [|done].
  cbn [List.filter] in *. rewrite IH.
  destruct (P y) eqn:Hy, (P x) eqn:Hx; try done.
  by rewrite Hirr in Hlt.
Qed.

Lemma sorted_filter (P : A -> bool) (l : list A) :
  (∀ x y, P x = true -> P y = true -> py_lt (key x) (key y) = false) ->
  List.filter P (sorted l key) = List.filter P l.
Proof.
  intros Hirr. induction l as [|x l IH]; [done|].
  unfold sorted in *. cbn [foldr]. rewrite insert_by_filter by auto.
  cbn [List.filter]. by rewrite IH.
Qed.

Lemma insert_by_sorted (R : relation A) `{!Transitive R} (x : A) (l : list A) :
  (∀ a b, py_lt (key b) (key a) = false -> R a b) ->
  (∀ a b, py_lt (key a) (key b) = true -> R a b) ->
  StronglySorted R l -> StronglySorted R (insert_by key x l).
Proof.
  intros Hge Hlt. induction 1 as [|y l Hl IH Hy]; simpl.
  - by repeat constructor.
  - destruct (py_lt (key y) (key x)) eqn:Hyx.
    + constructor; [done|]. rewrite insert_by_perm. constructor; [by apply Hlt|done].
    + assert (Hxy : R x y) by by apply Hge.
      constructor; [by constructor|]. constructor; [done|].
      eapply Forall_impl; [exact Hy|]. intros z Hz. by transitivity y.
Qed.

Lemma sorted_sorted (R : relation A) `{!Transitive R} (l : list A) :
  (∀ a b, py_lt (key b) (key a) = false -> R a b) ->
  (∀ a b, py_lt (key a) (key b) = true -> R a b) ->
  StronglySorted R (sorted l key).
Proof.
  intros Hge Hlt. induction l as [|x l IH]; [constructor|].
  unfold sorted in *. simpl. by apply insert_by_sorted.
Qed.

End Sorting.

(** *** The order on strings and on the default key *)

Lemma compare_refl (s : string) : String.compare s s = Eq.
Proof.
  pose proof (String.compare_antisym s s) as H.
  by destruct (String.compare s s).
Qed.

Lemma ltb_le (a b : string) : String.ltb a b = true -> strict String.le a b.
Proof.
  unfold strict, String.le, String.leb, String.ltb.
  rewrite (String.compare_antisym a b).
  destruct (String.compare b a); simpl; try done. intros _. split; [done|tauto].
Qed.

Lemma not_ltb_le (a b : string) : String.ltb b a = false -> String.le a b.
Proof.
  unfold String.le, String.leb, String.ltb.
  rewrite (String.compare_antisym a b).
  by destruct (String.compare b a).
Qed.

Lemma uuid_pmid_lt_irrefl (k : string * string) : py_lt k k = false.
Proof.
  unfold py_lt, pair_lt. rewrite decide_True by done.
  unfold py_lt, string_lt, String.ltb. by rewrite compare_refl.
Qed.

Lemma uuid_pmid_not_lt (r1 r2 : Row) :
  py_lt (attrgetter_uuid_pmid r2) (attrgetter_uuid_pmid r1) = false -> uuid_pmid_le r1 r2.
Proof.
  unfold py_lt, pair_lt, attrgetter_uuid_pmid, uuid_pmid_le. simpl.
  destruct (decide (row_uuid r2 = row_uuid r1)) as [Heq|Hne]; intros Hlt.
  - right. split; [done|]. by apply not_ltb_le.
  - left. apply not_ltb_le in Hlt. split; [done|].
    intros Hle. apply Hne. by apply (anti_symm String.le).
Qed.

Lemma uuid_pmid_lt (r1 r2 : Row) :
  py_lt (attrgetter_uuid_pmid r1) (attrgetter_uuid_pmid r2) = true -> uuid_pmid_le r1 r2.
Proof.
  unfold py_lt, pair_lt, attrgetter_uuid_pmid, uuid_pmid_le. simpl.
  destruct (decide (row_uuid r1 = row_uuid r2)) as [Heq|Hne]; intros Hlt.
  - right. split; [done|]. by apply ltb_le in Hlt as [? _].
  - left. by apply ltb_le.
Qed.

#[local] Instance uuid_pmid_le_trans : Transitive uuid_pmid_le.
Proof.
  intros r1 r2 r3 [H12|[E12 H12]] [H23|[E23 H23]]; unfold uuid_pmid_le.
  - left. by transitivity (row_uuid r2).
  - left. by rewrite <- E23.
  - left. by rewrite E12.
  - right. split; [congruence|]. by transitivity (row_pmid r2).
Qed.

(** ** The printing pipeline *)

Section Printing.

Context {Node Assembler : Type}.
Variable UNQUALIFIED_EDGES : gset string.
Variable PybelAssembler : list Statement -> outcome Assembler.
Variable make_model : Assembler -> outcome (@BELGraph Node).
Variable edge_to_bel : @BELGraph Node -> Node -> Node -> EdgeData -> string -> bool -> string.
Variable run_preassembly : list Statement -> list Statement.
Variable filter_belief : list Statement -> PyFloat.float -> list Statement.

Local Abbreviation get_all :=
  (get_rows_from_statements UNQUALIFIED_EDGES PybelAssembler make_model edge_to_bel).
Local Abbreviation print_all :=
  (print_statements UNQUALIFIED_EDGES PybelAssembler make_model edge_to_bel
     run_preassembly filter_belief).
Local Abbreviation prepared := (preassembled run_preassembly filter_belief).

(** Row extraction writes nothing. *)
Lemma get_rows_from_statement_output (statement : Statement) (duplicates : bool)
    (keep_only_pmid : option string) (w : World) :
  output ((get_rows_from_statement UNQUALIFIED_EDGES PybelAssembler make_model edge_to_bel
             statement duplicates keep_only_pmid).2 w).2 = output w.
Proof.
  destruct (decide (kept_evidence statement = [])) as [Hkept|Hkept].
  - by rewrite get_rows_from_statement_short.
  - rewrite get_rows_from_statement_long by done. simpl.
    unfold _get_rows_from_statement, mbind, M_bind, bind.
    rewrite get_graph_from_statement_run.
    destruct (PybelAssembler _) as [pba|e1]; simpl; [|done].
    destruct (make_model pba) as [graph|e2]; simpl; [done|].
    by destruct (is_AttributeError e2).
Qed.

Lemma get_rows_from_statements_output (statements : list Statement) (duplicates : bool)
    (keep_only_pmid : option string) (w : World) :
  output (get_all statements duplicates keep_only_pmid w).2 = output w.
Proof.
  revert w. induction statements as [|statement statements IH]; intros w; [done|].
  cbn [get_rows_from_statements]. unfold mbind, M_bind, bind.
  pose proof (get_rows_from_statement_output statement duplicates keep_only_pmid w) as H1.
  destruct ((get_rows_from_statement _ _ _ _ statement _ _).2 w) as [[rows|e] w1];
    simpl in *; [|done].
  pose proof (IH w1) as H2.
  destruct (get_all statements duplicates keep_only_pmid w1) as [[rows'|e] w2];
    simpl in *; congruence.
Qed.

Lemma for_each_print (rows : list Row) (sep : string) (w : World) :
  for_each rows (fun row => print (row_fields row) sep) w =
    (Returned tt, written w (map (data_line sep) rows)).
Proof.
  revert w. induction rows as [|row rows IH]; intros w.
  - simpl. unfold ret, written. simpl. rewrite app_nil_r. by destruct w.
  - cbn [for_each]. unfold mbind, M_bind, bind, print at 1. rewrite IH.
    unfold written. simpl. by rewrite <- app_assoc.
Qed.

(** One run of [print_statements]: the header, the rows of the prepared
    statements, and, unless extraction raised, the sorted and limited rows. *)
Lemma print_statements_run {K} `{PyLt K} (statements : list Statement)
    (sep : option string) (limit : option Z) (duplicates : bool)
    (keep_only_pmid : option string) (sort_key : Row -> K)
    (minimum_belief : option PyFloat.float) (w : World) :
  print_all statements sep limit duplicates keep_only_pmid sort_key minimum_belief w =
    match get_all (prepared minimum_belief statements) duplicates keep_only_pmid
            (written w [join (or_default sep TAB) header]) with
    | (Returned rows, w1) =>
        (Returned tt,
         written w1 (map (data_line (or_default sep TAB))
                         (limited limit (sorted rows sort_key))))
    | (Raised e, w1) => (Raised e, w1)
    end.
Proof.
  unfold print_statements, mbind, M_bind, bind, print at 1, written at 1, preassembled.
  destruct minimum_belief as [cutoff|];
    (destruct (get_all _ duplicates keep_only_pmid _) as [[rows|e] w1];
     [apply for_each_print|done]).
Qed.

(** C2: every data line is the uuid, the evidence source hash, the belief,
    the pmid, the evidence text, the source api and the edge text, in that
    order; they follow the header line. *)
Theorem data_line_has_seven_fields {K} `{PyLt K} (statements : list Statement)
    (sep : option string) (limit : option Z) (duplicates : bool)
    (keep_only_pmid : option string) (sort_key : Row -> K)
    (minimum_belief : option PyFloat.float) (w w1 : World) (rows : list Row) :
  get_all (prepared minimum_belief statements) duplicates keep_only_pmid
    (written w [join (or_default sep TAB) header]) = (Returned rows, w1) ->
  output (print_all statements sep limit duplicates keep_only_pmid sort_key
            minimum_belief w).2 =
    (output w ++
     join (or_default sep TAB) header ::
     map (fun row =>
            row_uuid row +:+ or_default sep TAB +:+
            pretty (row_evidence_source_hash row) +:+ or_default sep TAB +:+
            PyFloat.repr (row_belief row) +:+ or_default sep TAB +:+
            row_pmid row +:+ or_default sep TAB +:+
            row_evidence row +:+ or_default sep TAB +:+
            row_api row +:+ or_default sep TAB +:+
            row_bel row)
         (limited limit (sorted rows sort_key)))%list.
Proof.
  intros Hrows. rewrite print_statements_run, Hrows. simpl.
  pose proof (get_rows_from_statements_output (prepared minimum_belief statements)
                duplicates keep_only_pmid
                (written w [join (or_default sep TAB) header])) as Hout.
  rewrite Hrows in Hout. simpl in Hout. rewrite Hout, <- app_assoc. done.
Qed.

Lemma or_default_falsy (sep : option string) :
  sep = None ∨ sep = Some "" -> or_default sep TAB = TAB.
Proof. by intros [-> | ->]. Qed.

Lemma take_min_length {A} (l : list A) (n : Z) (len : nat) :
  0 <= n -> length l = len ->
  take (Z.to_nat n) l = take (Z.to_nat (Z.min n (Z.of_nat len))) l.
Proof.
  intros Hn Hlen. destruct (Z.le_gt_cases n (Z.of_nat len)) as [Hle|Hgt].
  - by rewrite Z.min_l.
  - rewrite Z.min_r, Nat2Z.id by lia. rewrite !take_ge; [done|lia..].
Qed.

(** C6: the rows are written in ascending lexicographic order of
    (uuid, pmid), rows with the same key in the order they were extracted;
    with a limit [N] the slice [rows[:N]] of them is written, after the
    header line: the first [min N total] for [0 <= N] and all but the last
    [-N] for a negative [N]. *)
Theorem print_statements_sorted_and_limited (statements : list Statement)
    (sep : option string) (N : Z) (duplicates : bool)
    (keep_only_pmid : option string) (minimum_belief : option PyFloat.float)
    (w w1 : World) (rows : list Row) :
  get_all (prepared minimum_belief statements) duplicates keep_only_pmid
    (written w [join (or_default sep TAB) header]) = (Returned rows, w1) ->
  ∃ ordered,
    ordered ≡ₚ rows ∧
    StronglySorted uuid_pmid_le ordered ∧
    (∀ k, with_key k ordered = with_key k rows) ∧
    output (print_all statements sep (Some N) duplicates keep_only_pmid
              attrgetter_uuid_pmid minimum_belief w).2 =
      (output w ++
       join (or_default sep TAB) header ::
       map (data_line (or_default sep TAB))
           (take (slice_count N (length rows)) ordered))%list ∧
    (0 <= N -> slice_count N (length rows) = Z.to_nat (Z.min N (Z.of_nat (length rows)))) ∧
    (N < 0 -> slice_count N (length rows) = Z.to_nat (Z.max 0 (Z.of_nat (length rows) + N))) ∧
    output (print_all statements sep None duplicates keep_only_pmid
              attrgetter_uuid_pmid minimum_belief w).2 =
      (output w ++
       join (or_default sep TAB) header ::
       map (data_line (or_default sep TAB)) ordered)%list.
Proof.
  intros Hrows. exists (sorted rows attrgetter_uuid_pmid).
  pose proof (get_rows_from_statements_output (prepared minimum_belief statements)
                duplicates keep_only_pmid
                (written w [join (or_default sep TAB) header])) as Hout.
  rewrite Hrows in Hout. simpl in Hout.
  split; [apply sorted_perm|].
  split; [apply sorted_sorted; [apply _|apply uuid_pmid_not_lt|apply uuid_pmid_lt]|].
  split.
  { intros k. apply sorted_filter. intros x y Hx%bool_decide_eq_true Hy%bool_decide_eq_true.
    rewrite Hx, Hy. apply uuid_pmid_lt_irrefl. }
  rewrite !print_statements_run, Hrows. simpl. rewrite Hout, <- !app_assoc. simpl.
  assert (Hlen : length (sorted rows attrgetter_uuid_pmid) = length rows)
    by by rewrite sorted_perm.
  assert (Hslice : slice_to (sorted rows attrgetter_uuid_pmid) N =
                   take (slice_count N (length rows)) (sorted rows attrgetter_uuid_pmid)).
  { unfold slice_to, slice_count. rewrite Hlen.
    destruct (Z.ltb_spec N 0) as [Hneg|Hpos].
    - f_equal. lia.
    - destruct (Nat.le_ge_cases (Z.to_nat N) (length rows)) as [Hle|Hge].
      + by rewrite Nat.min_l.
      + rewrite Nat.min_r by done. rewrite !take_ge; [done|lia..]. }
  split; [|split; [|split; [|done]]].
  - by rewrite Hslice.
  - intros HN. unfold slice_count. rewrite (proj2 (Z.ltb_ge N 0)) by done. lia.
  - intros HN. unfold slice_count. rewrite (proj2 (Z.ltb_lt N 0)) by done. lia.
Qed.

(** C9: with no separator, or an empty one, the call is the call with a tab:
    the header line and every data line are joined with tabs. *)
Theorem falsy_sep_is_tab {K} `{PyLt K} (statements : list Statement)
    (sep : option string) (limit : option Z) (duplicates : bool)
    (keep_only_pmid : option string) (sort_key : Row -> K)
    (minimum_belief : option PyFloat.float) (w : World) :
  sep = None ∨ sep = Some "" ->
  print_all statements sep limit duplicates keep_only_pmid sort_key minimum_belief w =
    print_all statements (Some TAB) limit duplicates keep_only_pmid sort_key
      minimum_belief w ∧
  ∃ rows,
    output (print_all statements sep limit duplicates keep_only_pmid sort_key
              minimum_belief w).2 =
      (output w ++ join TAB header :: map (fun row => join TAB (row_fields row)) rows)%list.
Proof.
  intros Hsep. rewrite !print_statements_run, (or_default_falsy sep Hsep).
  change (or_default (Some TAB) TAB) with TAB. split; [done|].
  pose proof (get_rows_from_statements_output (prepared minimum_belief statements)
                duplicates keep_only_pmid (written w [join TAB header])) as Hout.
  destruct (get_all _ duplicates keep_only_pmid _) as [[rows|e] w1];
    cbn [snd written output] in *.
  - exists (limited limit (sorted rows sort_key)). by rewrite Hout, <- app_assoc.
  - exists []. by rewrite Hout.
Qed.

End Printing.

Lemma data_line_has_seven_fields_witness :
  output (sample_run [sample_statement] None None).2 =
    [join TAB header; data_line TAB sample_row].
Proof.
  unfold sample_run.
  erewrite (data_line_has_seven_fields sample_unqualified sample_assembler sample_make_model
              sample_edge_to_bel (fun statements => statements) sample_filter_belief
              [sample_statement] None None false None attrgetter_uuid_pmid None
              empty_world _ [sample_row]).
  - vm_compute. reflexivity.
  - vm_compute. reflexivity.
Defined.

(** C2, as the interface description words it, fails: the line of the sample
    row has the evidence source hash between the uuid and the belief. *)
Lemma data_line_not_as_described :
  output (sample_run [sample_statement] None None).2 =
    [join TAB header; data_line TAB sample_row] ∧
  data_line TAB sample_row ≠ described_data_line TAB sample_row.
Proof.
  split; [vm_compute; reflexivity|]. vm_compute. discriminate.
Qed.

Lemma print_statements_sorted_and_limited_witness :
  ∃ ordered,
    ordered ≡ₚ [half_belief_row; sample_row] ∧
    StronglySorted uuid_pmid_le ordered ∧
    output (sample_run [half_belief_statement; sample_statement] None (Some 1)).2 =
      join TAB header :: map (data_line TAB) (take 1 ordered).
Proof.
  unfold sample_run.
  edestruct (print_statements_sorted_and_limited sample_unqualified sample_assembler
               sample_make_model sample_edge_to_bel (fun statements => statements)
               sample_filter_belief [half_belief_statement; sample_statement] None 1
               false None None empty_world
               (get_rows_from_statements sample_unqualified sample_assembler
                  sample_make_model sample_edge_to_bel
                  [half_belief_statement; sample_statement] false None
                  (written empty_world [join TAB header])).2
               [half_belief_row; sample_row])
    as (ordered & Hperm & Hsorted & Hstable & Hlimit & _).
  - vm_compute. reflexivity.
  - exists ordered. split; [exact Hperm|]. split; [exact Hsorted|exact Hlimit].
Defined.

(** C6, with the first [min N total] rows for every configured limit, fails:
    with a limit of -1 and two rows the first row is written, where the
    first [min (-1) 2] rows are none. *)
Lemma negative_limit_is_not_a_minimum :
  output (sample_run [half_belief_statement; sample_statement] None (Some (-1))).2 =
    [join TAB header; data_line TAB sample_row] ∧
  sorted [half_belief_row; sample_row] attrgetter_uuid_pmid = [sample_row; half_belief_row] ∧
  output (sample_run [half_belief_statement; sample_statement] None (Some (-1))).2 ≠
    join TAB header ::
    map (data_line TAB)
        (take (Z.to_nat (Z.min (-1) 2))
              (sorted [half_belief_row; sample_row] attrgetter_uuid_pmid)).
Proof.
  split; [vm_compute; reflexivity|]. split; [vm_compute; reflexivity|].
  vm_compute. discriminate.
Qed.

Lemma falsy_sep_is_tab_witness :
  sample_run [sample_statement] (Some "") None =
  sample_run [sample_statement] (Some TAB) None.
Proof.
  apply (falsy_sep_is_tab sample_unqualified sample_assembler sample_make_model
           sample_edge_to_bel (fun statements => statements) sample_filter_belief
           [sample_statement] (Some "") None false None attrgetter_uuid_pmid None
           empty_world).
  right. reflexivity.
Defined.

(** ** The belief field *)

Lemma digits2_pos_bound (m : positive) : Z.pos m < 2 ^ Z.pos (digits2_pos m).
Proof.
  induction m as [m IH|m IH|]; simpl digits2_pos.
  - rewrite Pos2Z.inj_succ, Z.pow_succ_r, Pos2Z.inj_xI by lia. lia.
  - rewrite Pos2Z.inj_succ, Z.pow_succ_r, Pos2Z.inj_xO by lia. lia.
  - reflexivity.
Qed.

Lemma one_eq : PyFloat.one = S754_finite false 4503599627370496 (-52).
Proof. reflexivity. Qed.

(** A belief score is a fraction between zero and one. *)
Lemma probability_le_one (x : PyFloat.float) :
  is_probability x = true -> 0 <= exact_num x <= exact_den x ∧ 0 < exact_den x.
Proof.
  destruct x as [s|s| |s m e]; simpl; try done.
  rewrite !andb_true_iff, negb_true_iff. intros [[-> Hbounded] Hle].
  unfold bounded, canonical_mantissa, fexp, emin, PyFloat.prec, PyFloat.emax in Hbounded.
  apply andb_true_iff in Hbounded as [Hcanon%Z.eqb_eq _].
  assert (Hm : Z.pos m < 2 ^ 53).
  { eapply Z.lt_le_trans; [apply digits2_pos_bound|].
    apply Z.pow_le_mono_r; lia. }
  unfold PyFloat.le in Hle. rewrite one_eq in Hle.
  unfold SFleb, SFcompare in Hle.
  unfold PyFloat.mag_num, PyFloat.mag_den.
  destruct (Z.compare_spec e (-52)) as [->|He|He]; [| |done].
  - assert (H1 : 2 ^ Z.max (-52) 0 = 1) by reflexivity.
    assert (H2 : 2 ^ Z.max (- -52) 0 = 4503599627370496) by reflexivity.
    rewrite H1, H2. rewrite Pos.compare_cont_spec in Hle. simpl in Hle.
    destruct (Pos.compare_spec m 4503599627370496) as [Heq|Hlt|Hgt].
    + clear Hcanon Hm Hle H1 H2. subst m. split; [split|]; reflexivity || discriminate.
    + apply Pos2Z.pos_lt_pos in Hlt. rewrite Z.mul_1_l, Z.mul_1_r.
      split; [split; [apply Pos2Z.is_nonneg|by apply Z.lt_le_incl]|reflexivity].
    + discriminate Hle.
  - rewrite Z.max_r, Z.max_l by lia. change (2 ^ 0) with 1.
    assert (2 ^ 53 <= 2 ^ (- e)) by (apply Z.pow_le_mono_r; lia). lia.
Qed.

(** Rounding a fraction of at most a hundred gives the nearest integer. *)
Lemma round_half_even_spec (n d : Z) :
  0 < d -> 0 <= n <= 100 * d ->
  0 <= PyFloat.round_half_even n d <= 100 ∧
  Z.abs (2 * n - 2 * PyFloat.round_half_even n d * d) <= d.
Proof.
  intros Hd Hn. unfold PyFloat.round_half_even.
  pose proof (Z.div_mod n d ltac:(lia)) as Hdiv.
  pose proof (Z.mod_pos_bound n d Hd) as Hmod.
  assert (Hq : 0 <= n / d <= 100).
  { split; [apply Z.div_pos; lia|]. apply Z.div_le_upper_bound; lia. }
  set (q := n / d) in *. set (r := n mod d) in *.
  destruct (Z.compare_spec (2 * r) d); [destruct (Z.even q)|..]; nia.
Qed.

(** Half way between two integers, rounding gives the even one. *)
Lemma round_half_even_tie (n d : Z) :
  0 < d -> 0 <= n ->
  Z.abs (2 * n - 2 * PyFloat.round_half_even n d * d) = d ->
  Z.even (PyFloat.round_half_even n d) = true.
Proof.
  intros Hd Hn. unfold PyFloat.round_half_even.
  pose proof (Z.div_mod n d ltac:(lia)) as Hdiv.
  pose proof (Z.mod_pos_bound n d Hd) as Hmod.
  set (q := n / d) in *. set (r := n mod d) in *.
  destruct (Z.compare_spec (2 * r) d) as [Heq|Hlt|Hgt].
  - intros _. destruct (Z.even q) eqn:Hq; [done|].
    change (q + 1) with (Z.succ q). by rewrite Z.even_succ, <- Z.negb_even, Hq.
  - intros Htie. exfalso. nia.
  - intros Htie. exfalso. nia.
Qed.

Lemma round_probability (x : PyFloat.float) :
  is_probability x = true ->
  PyFloat.round x 2 =
    PyFloat.strtod false (PyFloat.round_half_even (100 * exact_num x) (exact_den x)) (-2).
Proof.
  destruct x as [s|s| |s m e]; simpl; try done.
  - by destruct s.
  - destruct s; [done|]. intros _.
    by rewrite Z.mul_1_l.
Qed.

(** The table of hundredths: how each of 0.00, 0.01, ..., 1.00 prints. *)
Lemma hundredth_table (k : Z) : 0 <= k <= 100 -> hundredth_ok k = true.
Proof.
  intros Hk.
  assert (Hall : forallb hundredth_ok (seqZ 0 101) = true) by (vm_compute; reflexivity).
  rewrite forallb_forall in Hall. apply Hall.
  apply list_elem_of_In, elem_of_seqZ. lia.
Qed.

Lemma rows_of_edges_belief {Node} (UNQUALIFIED_EDGES : gset string)
    (edge_to_bel : @BELGraph Node -> Node -> Node -> EdgeData -> string -> bool -> string)
    (statement : Statement) (graph : BELGraph) (es : list (Node * Node * EdgeData))
    (row : Row) :
  row ∈ rows_of_edges UNQUALIFIED_EDGES edge_to_bel statement graph es ->
  row_belief row = PyFloat.round (belief statement) 2.
Proof.
  induction es as [|[[u v] data] es IH]; cbn [rows_of_edges].
  - by intros ?%elem_of_nil.
  - destruct (bool_decide _); [exact IH|].
    destruct (blacklisted _); [exact IH|].
    intros [->|Hin]%elem_of_cons; [reflexivity|by apply IH].
Qed.

(** The rows that [_get_rows_from_statement] returns carry the rounded
    belief of the statement. *)
Lemma get_rows_belief {Node Assembler} (UNQUALIFIED_EDGES : gset string)
    (PybelAssembler : list Statement -> outcome Assembler)
    (make_model : Assembler -> outcome (@BELGraph Node))
    (edge_to_bel : @BELGraph Node -> Node -> Node -> EdgeData -> string -> bool -> string)
    (statement : Statement) (w w1 : World) (rows : list Row) (row : Row) :
  _get_rows_from_statement UNQUALIFIED_EDGES PybelAssembler make_model edge_to_bel
    statement w = (Returned rows, w1) ->
  row ∈ rows ->
  row_belief row = PyFloat.round (belief statement) 2.
Proof.
  unfold _get_rows_from_statement, mbind, M_bind, bind.
  rewrite get_graph_from_statement_run.
  destruct (PybelAssembler [statement]) as [pba|e1]; [|done].
  destruct (make_model pba) as [graph|e2].
  - intros [= <- _] Hrow. by apply rows_of_edges_belief in Hrow.
  - destruct (is_AttributeError e2); [|done].
    by intros [= <- _] Hrow%elem_of_nil.
Qed.

(** C8: the belief field of a row, be it a row of the loop over any edges or
    a row that [_get_rows_from_statement] returns, is the belief of the
    statement rounded to the nearest hundredth, to the even one when the
    belief is half way between two, and printed the short way: with two
    decimals when the second one is not zero and with one decimal
    otherwise. *)
Theorem belief_field_text {Node Assembler} (UNQUALIFIED_EDGES : gset string)
    (PybelAssembler : list Statement -> outcome Assembler)
    (make_model : Assembler -> outcome (@BELGraph Node))
    (edge_to_bel : @BELGraph Node -> Node -> Node -> EdgeData -> string -> bool -> string)
    (statement : Statement) (graph : BELGraph) (es : list (Node * Node * EdgeData))
    (row : Row) :
  is_probability (belief statement) = true ->
  row ∈ rows_of_edges UNQUALIFIED_EDGES edge_to_bel statement graph es ∨
  (∃ w rows w1,
     _get_rows_from_statement UNQUALIFIED_EDGES PybelAssembler make_model edge_to_bel
       statement w = (Returned rows, w1) ∧ row ∈ rows) ->
  ∃ k,
    0 <= k <= 100 ∧
    Z.abs (200 * exact_num (belief statement) - 2 * k * exact_den (belief statement))
      <= exact_den (belief statement) ∧
    (Z.abs (200 * exact_num (belief statement) - 2 * k * exact_den (belief statement))
       = exact_den (belief statement) -> Z.even k = true) ∧
    row_fields row !! 2%nat = Some (hundredths_text k) ∧
    decimals (hundredths_text k) = Some (if k mod 10 =? 0 then 1%nat else 2%nat).
Proof.
  intros Hprob Hrow.
  assert (Hbelief : row_belief row = PyFloat.round (belief statement) 2).
  { destruct Hrow as [Hrow|(w & rows & w1 & Hrun & Hrow)].
    - by apply rows_of_edges_belief in Hrow.
    - by apply (get_rows_belief _ _ _ _ _ _ _ _ _ Hrun). }
  destruct (probability_le_one _ Hprob) as [Hnum Hden].
  destruct (round_half_even_spec (100 * exact_num (belief statement))
              (exact_den (belief statement)) Hden ltac:(lia)) as [Hk Hnear].
  pose proof (round_half_even_tie (100 * exact_num (belief statement))
                (exact_den (belief statement)) Hden ltac:(lia)) as Htie.
  set (k := PyFloat.round_half_even _ _) in *.
  exists k. split; [done|]. split; [lia|].
  split; [intros Heq; apply Htie; lia|].
  pose proof (hundredth_table k Hk) as [Htext%String.eqb_eq Hdec%bool_decide_eq_true]%andb_true_iff.
  split; [|done].
  unfold row_fields. cbn [lookup list_lookup].
  rewrite Hbelief, (round_probability _ Hprob).
  fold k. by rewrite Htext.
Qed.

Lemma belief_field_text_witness :
  is_probability (belief half_belief_statement) = true ∧
  ∃ k, 0 <= k <= 100 ∧ row_fields half_belief_row !! 2%nat = Some (hundredths_text k).
Proof.
  split; [reflexivity|].
  destruct (belief_field_text sample_unqualified sample_assembler sample_make_model
              sample_edge_to_bel half_belief_statement
              {| edges := sample_edges half_belief_statement |}
              (sample_edges half_belief_statement) half_belief_row)
    as (k & Hk & _ & _ & Htext & _).
  - reflexivity.
  - right. eexists empty_world, [half_belief_row], _. split.
    + vm_compute. reflexivity.
    + apply elem_of_cons. by left.
  - exists k. split; [exact Hk|exact Htext].
Defined.

(** C8, with exactly two decimals, fails: a belief of 0.5 is written 0.5. *)
Lemma belief_half_has_one_decimal :
  is_probability (belief half_belief_statement) = true ∧
  output (sample_run [half_belief_statement] None None).2 =
    [join TAB header; data_line TAB half_belief_row] ∧
  row_fields half_belief_row !! 2%nat = Some "0.5" ∧
  decimals "0.5" ≠ Some 2%nat.
Proof.
  split; [reflexivity|]. split; [vm_compute; reflexivity|].
  split; [vm_compute; reflexivity|]. vm_compute. discriminate.
Qed.

(** * Further properties *)

(** ** The evidence a statement is left with *)

Lemma filter_sublist {A} (f : A -> bool) (l : list A) : List.filter f l `sublist_of` l.
Proof.
  induction l as [|x l IH]; simpl; [constructor|].
  destruct (f x); by constructor.
Qed.

Lemma filter_all {A} (f : A -> bool) (l : list A) :
  Forall (fun x => f x = true) l -> List.filter f l = l.
Proof.
  induction 1 as [|x l Hx _ IH]; simpl; [done|]. by rewrite Hx, IH.
Qed.

Lemma filter_Forall {A} (f : A -> bool) (l : list A) :
  Forall (fun x => f x = true) (List.filter f l).
Proof.
  apply Forall_forall. intros x Hx%list_elem_of_In%filter_In. tauto.
Qed.

Lemma Forall_sublist {A} (P : A -> Prop) (l1 l2 : list A) :
  l1 `sublist_of` l2 -> Forall P l2 -> Forall P l1.
Proof.
  rewrite !Forall_forall. intros Hsub H x Hx. apply H. by eapply elem_of_sublist.
Qed.

Lemma matching_sublist_kept (keep_only_pmid : option string) (statement : Statement) :
  matching_evidence keep_only_pmid statement `sublist_of` kept_evidence statement.
Proof.
  destruct keep_only_pmid as [p|]; simpl; [apply filter_sublist|done].
Qed.

Lemma matching_pmid (p : string) (statement : Statement) :
  Forall (fun e => bool_decide (pmid e = Some p) = true)
         (matching_evidence (Some p) statement).
Proof. apply filter_Forall. Qed.

Section EvidenceSelection.

Context {Node Assembler : Type}.
Variable UNQUALIFIED_EDGES : gset string.
Variable PybelAssembler : list Statement -> outcome Assembler.
Variable make_model : Assembler -> outcome (@BELGraph Node).
Variable edge_to_bel : @BELGraph Node -> Node -> Node -> EdgeData -> string -> bool -> string.

Local Abbreviation get_rows' :=
  (_get_rows_from_statement UNQUALIFIED_EDGES PybelAssembler make_model edge_to_bel).
Local Abbreviation get_rows :=
  (get_rows_from_statement UNQUALIFIED_EDGES PybelAssembler make_model edge_to_bel).

(** The evidence left on the statement, whatever the path taken. *)
Lemma evidence_left (statement : Statement) (duplicates : bool)
    (keep_only_pmid : option string) :
  evidence (get_rows statement duplicates keep_only_pmid).1 =
    if duplicates then matching_evidence keep_only_pmid statement
    else take 1 (matching_evidence keep_only_pmid statement).
Proof.
  destruct (decide (kept_evidence statement = [])) as [Hkept|Hkept].
  - rewrite get_rows_from_statement_short by done.
    unfold matching_evidence. rewrite Hkept. by destruct keep_only_pmid, duplicates.
  - by rewrite get_rows_from_statement_long.
Qed.

Lemma evidence_left_sublist (statement : Statement) (duplicates : bool)
    (keep_only_pmid : option string) :
  evidence (get_rows statement duplicates keep_only_pmid).1
    `sublist_of` matching_evidence keep_only_pmid statement.
Proof.
  rewrite evidence_left. destruct duplicates; [done|apply sublist_take].
Qed.

(** The evidence left passes the blacklists again, and the document filter
    when there is one. *)
Lemma evidence_left_kept (statement : Statement) (duplicates : bool)
    (keep_only_pmid : option string) :
  let after := (get_rows statement duplicates keep_only_pmid).1 in
  kept_evidence after = evidence after ∧
  matching_evidence keep_only_pmid after = evidence after.
Proof.
  intros after.
  assert (Hkept : Forall (fun e => truthy (_keep_evidence e) = true) (evidence after)).
  { eapply Forall_sublist; [|apply filter_Forall].
    etrans; [apply evidence_left_sublist|apply matching_sublist_kept]. }
  assert (Heq : kept_evidence after = evidence after) by by apply filter_all.
  split; [done|]. unfold matching_evidence. rewrite Heq.
  destruct keep_only_pmid as [p|]; [|done].
  apply filter_all. eapply Forall_sublist; [apply evidence_left_sublist|apply matching_pmid].
Qed.

(** On the body: the evidence left is a sub-sequence of the evidence there
    was, each entry passes the evidence filter and the document filter. *)
Lemma body_evidence_is_filtered (statement : Statement) (duplicates : bool)
    (keep_only_pmid : option string) :
  let after := (get_rows statement duplicates keep_only_pmid).1 in
  evidence after `sublist_of` evidence statement ∧
  ∀ e, e ∈ evidence after ->
    truthy (_keep_evidence e) = true ∧
    ∀ p, keep_only_pmid = Some p -> pmid e = Some p.
Proof.
  intros after. split.
  - etrans; [apply evidence_left_sublist|].
    etrans; [apply matching_sublist_kept|apply filter_sublist].
  - intros e He. split.
    + assert (Hin : e ∈ kept_evidence statement).
      { eapply elem_of_sublist; [exact He|].
        etrans; [apply evidence_left_sublist|apply matching_sublist_kept]. }
      apply list_elem_of_In, filter_In in Hin. tauto.
    + intros p ->.
      assert (Hin : e ∈ matching_evidence (Some p) statement).
      { eapply elem_of_sublist; [exact He|]. apply evidence_left_sublist. }
      pose proof (matching_pmid p statement) as Hall.
      rewrite Forall_forall in Hall. by apply (bool_decide_eq_true_1 _), Hall.
Qed.

(** On the body: with duplicates, the evidence left is all that passes. *)
Lemma body_duplicates_keep_all_matching (statement : Statement)
    (keep_only_pmid : option string) :
  let after := (get_rows statement true keep_only_pmid).1 in
  evidence after = matching_evidence keep_only_pmid statement ∧
  ∀ e, e ∈ evidence after ↔
    e ∈ evidence statement ∧ truthy (_keep_evidence e) = true ∧
    ∀ p, keep_only_pmid = Some p -> pmid e = Some p.
Proof.
  intros after. unfold after. rewrite evidence_left. split; [done|].
  intros e. unfold matching_evidence, kept_evidence.
  destruct keep_only_pmid as [p|].
  - rewrite !list_elem_of_In, !filter_In, bool_decide_eq_true. split.
    + intros [[? ?] ?]. split; [done|]. split; [done|]. by intros ? [= <-].
    + intros (? & ? & Hp). split; [done|]. by apply Hp.
  - rewrite !list_elem_of_In, !filter_In. split.
    + intros [? ?]. by split.
    + intros (? & ? & _). done.
Qed.

(** On the body: a second run on the statement that a first run left. *)
Lemma body_second_pass (statement : Statement) (duplicates : bool)
    (keep_only_pmid : option string) :
  let after := (get_rows statement duplicates keep_only_pmid).1 in
  (get_rows after duplicates keep_only_pmid).1 = after ∧
  (evidence after = [] ->
   (get_rows after duplicates keep_only_pmid).2 = ret (@nil Row)) ∧
  (evidence after ≠ [] ->
   (get_rows after duplicates keep_only_pmid).2 =
   (get_rows statement duplicates keep_only_pmid).2).
Proof.
  intros after. destruct (evidence_left_kept statement duplicates keep_only_pmid)
    as [Hkept Hmatch]. fold after in Hkept, Hmatch.
  assert (Hset : set_evidence after (evidence after) = after) by by destruct after.
  assert (Htake : (if duplicates then evidence after else take 1 (evidence after))
                  = evidence after).
  { destruct duplicates; [done|]. unfold after. rewrite evidence_left.
    apply take_idemp. }
  destruct (decide (evidence after = [])) as [Hnil|Hcons].
  - rewrite get_rows_from_statement_short by congruence.
    rewrite <- Hnil, Hset. done.
  - rewrite get_rows_from_statement_long by congruence.
    cbn zeta. rewrite Hmatch, Htake, Hset. split; [done|]. split; [done|].
    intros _. unfold after at 2.
    destruct (decide (kept_evidence statement = [])) as [Hk|Hk].
    + exfalso. apply Hcons. unfold after.
      by rewrite get_rows_from_statement_short.
    + by rewrite get_rows_from_statement_long.
Qed.

End EvidenceSelection.

(** ** Assembly and the rows of a graph *)

Section Assembly.

Context {Node Assembler : Type}.
Variable UNQUALIFIED_EDGES : gset string.
Variable PybelAssembler : list Statement -> outcome Assembler.
Variable make_model : Assembler -> outcome (@BELGraph Node).
Variable edge_to_bel : @BELGraph Node -> Node -> Node -> EdgeData -> string -> bool -> string.

Local Abbreviation get_graph := (get_graph_from_statement PybelAssembler make_model).
Local Abbreviation get_rows' :=
  (_get_rows_from_statement UNQUALIFIED_EDGES PybelAssembler make_model edge_to_bel).
Local Abbreviation rows_of := (rows_of_edges UNQUALIFIED_EDGES edge_to_bel).

(** The text of an edge, as the rows carry it. *)
Local Abbreviation bel_of graph :=
  (fun edge : Node * Node * EdgeData => edge_to_bel graph edge.1.1 edge.1.2 edge.2 TAB true).

(** X4: an exception raised by the constructor of the assembler, an
    AttributeError included, is raised to the caller: the handler covers the
    building of the model only, which is then not attempted. *)
Theorem constructor_error_propagates (statement : Statement) (e : exn) (w : World) :
  PybelAssembler [statement] = Raised e ->
  get_graph statement w = (Raised e, logged w [Call_PybelAssembler [statement]]) ∧
  get_rows' statement w = (Raised e, logged w [Call_PybelAssembler [statement]]).
Proof.
  intros Hpba.
  unfold _get_rows_from_statement, mbind, M_bind, bind.
  by rewrite get_graph_from_statement_run, Hpba.
Qed.

(** The rows of a list of edges are those of its qualified edges whose text
    has none of the blacklisted substrings. *)
Lemma rows_of_edges_iff (statement : Statement) (graph : BELGraph)
    (es : list (Node * Node * EdgeData)) (row : Row) :
  row ∈ rows_of statement graph es ↔
  ∃ u v data,
    (u, v, data) ∈ es ∧
    (RELATION data ∉ UNQUALIFIED_EDGES) ∧
    ¬ has_blacklisted_substring (edge_to_bel graph u v data TAB true) ∧
    row = {| row_uuid := uuid statement;
             row_evidence_source_hash := ann_source_hash (ANNOTATIONS data);
             row_belief := PyFloat.round (belief statement) 2;
             row_pmid := CITATION_IDENTIFIER data;
             row_evidence := EVIDENCE data;
             row_api := ann_source_api (ANNOTATIONS data);
             row_bel := edge_to_bel graph u v data TAB true |}.
Proof.
  induction es as [|[[u v] data] es IH]; cbn [rows_of_edges].
  - split; [by intros ?%elem_of_nil|]. by intros (? & ? & ? & ?%elem_of_nil & _).
  - destruct (bool_decide (RELATION data ∈ UNQUALIFIED_EDGES)) eqn:Hrel.
    { apply bool_decide_eq_true in Hrel. rewrite IH. split.
      - intros (u' & v' & data' & Hin & H). exists u', v', data'.
        split; [apply elem_of_cons; by right|exact H].
      - intros (u' & v' & data' & [Heq|Hin]%elem_of_cons & Hq & H).
        + injection Heq as -> -> ->. by destruct Hq.
        + exists u', v', data'. split; [exact Hin|]. split; [exact Hq|exact H]. }
    apply bool_decide_eq_false in Hrel.
    destruct (blacklisted (edge_to_bel graph u v data TAB true)) eqn:Hb.
    { apply blacklisted_spec in Hb. rewrite IH. split.
      - intros (u' & v' & data' & Hin & H). exists u', v', data'.
        split; [apply elem_of_cons; by right|exact H].
      - intros (u' & v' & data' & [Heq|Hin]%elem_of_cons & Hq & Hgood & H).
        + injection Heq as -> -> ->. by destruct Hgood.
        + exists u', v', data'. split; [exact Hin|]. split; [exact Hq|].
          split; [exact Hgood|exact H]. }
    assert (Hgood : ¬ has_blacklisted_substring (edge_to_bel graph u v data TAB true)).
    { intros Hbad%blacklisted_spec. congruence. }
    rewrite elem_of_cons, IH. split.
    + intros [->|(u' & v' & data' & Hin & H)].
      * exists u, v, data. split; [apply elem_of_cons; by left|].
        split; [exact Hrel|]. split; [exact Hgood|reflexivity].
      * exists u', v', data'. split; [apply elem_of_cons; by right|exact H].
    + intros (u' & v' & data' & [Heq|Hin]%elem_of_cons & Hq & Hg & H).
      * injection Heq as -> -> ->. left. exact H.
      * right. exists u', v', data'. split; [exact Hin|]. split; [exact Hq|].
        split; [exact Hg|exact H].
Qed.

(** X5: when the assembler builds a graph, [_get_rows_from_statement] yields
    a row exactly for the edges of that graph whose relation is qualified
    and whose text has none of the blacklisted substrings; the row carries
    the citation, evidence text, source hash and source api of that edge. *)
Theorem row_iff_qualified_edge (statement : Statement) (pba : Assembler)
    (graph : BELGraph) (w : World) :
  PybelAssembler [statement] = Returned pba ->
  make_model pba = Returned graph ->
  ∃ rows,
    get_rows' statement w =
      (Returned rows,
       logged w [Call_PybelAssembler [statement]; Call_make_model [statement]]) ∧
    ∀ row, row ∈ rows ↔
      ∃ u v data,
        (u, v, data) ∈ edges graph ∧
        (RELATION data ∉ UNQUALIFIED_EDGES) ∧
        ¬ has_blacklisted_substring (edge_to_bel graph u v data TAB true) ∧
        row = {| row_uuid := uuid statement;
                 row_evidence_source_hash := ann_source_hash (ANNOTATIONS data);
                 row_belief := PyFloat.round (belief statement) 2;
                 row_pmid := CITATION_IDENTIFIER data;
                 row_evidence := EVIDENCE data;
                 row_api := ann_source_api (ANNOTATIONS data);
                 row_bel := edge_to_bel graph u v data TAB true |}.
Proof.
  intros Hpba Hmodel. eexists. split.
  - by apply (get_rows_of_built_graph UNQUALIFIED_EDGES PybelAssembler make_model
                edge_to_bel statement pba graph w).
  - intros row. apply rows_of_edges_iff.
Qed.

(** X6: the rows follow the order of the edges and there is at most one row
    for an edge: their texts are a sub-sequence of the texts of the edges. *)
Theorem rows_in_edge_order (statement : Statement) (graph : BELGraph)
    (es : list (Node * Node * EdgeData)) :
  map row_bel (rows_of statement graph es) `sublist_of` map (bel_of graph) es ∧
  (length (rows_of statement graph es) ≤ length es)%nat.
Proof.
  assert (Hsub : map row_bel (rows_of statement graph es) `sublist_of` map (bel_of graph) es).
  { induction es as [|[[u v] data] es IH]; cbn [rows_of_edges map]; [constructor|].
    destruct (bool_decide _); [by constructor|].
    destruct (blacklisted _); [by constructor|].
    cbn [map row_bel fst snd]. by constructor. }
  split; [exact Hsub|].
  apply sublist_length in Hsub. by rewrite !length_map in Hsub.
Qed.

End Assembly.

Lemma row_iff_qualified_edge_witness :
  ∃ rows,
    _get_rows_from_statement sample_unqualified sample_assembler sample_make_model
      sample_edge_to_bel (set_evidence sample_statement [sample_evidence]) empty_world =
    (Returned rows,
     logged empty_world
       [Call_PybelAssembler [set_evidence sample_statement [sample_evidence]];
        Call_make_model [set_evidence sample_statement [sample_evidence]]]) ∧
    sample_row ∈ rows.
Proof.
  destruct (row_iff_qualified_edge sample_unqualified sample_assembler sample_make_model
              sample_edge_to_bel (set_evidence sample_statement [sample_evidence])
              [set_evidence sample_statement [sample_evidence]]
              {| edges := sample_edges (set_evidence sample_statement [sample_evidence]) |}
              empty_world)
    as (rows & Hrun & Hrows).
  - reflexivity.
  - vm_compute. reflexivity.
  - exists rows. split; [exact Hrun|]. apply Hrows.
    exists "p(HGNC:1)", "p(HGNC:2)",
      {| RELATION := "increases"; CITATION_IDENTIFIER := "111";
         EVIDENCE := "valid text";
         ANNOTATIONS := {| ann_source_hash := 42; ann_source_api := "reach" |} |}.
    split; [apply elem_of_cons; by left|].
    split; [intros Hin%(bool_decide_pack _); vm_compute in Hin; destruct Hin|].
    split; [intros Hbad%blacklisted_spec; vm_compute in Hbad; discriminate|].
    vm_compute. reflexivity.
Defined.

Lemma constructor_error_propagates_witness :
  get_graph_from_statement failing_assembler sample_make_model sample_statement empty_world
    = (Raised (AttributeError "'NoneType' object has no attribute 'db_refs'"),
       logged empty_world [Call_PybelAssembler [sample_statement]]).
Proof.
  apply (constructor_error_propagates sample_unqualified failing_assembler sample_make_model
           sample_edge_to_bel sample_statement
           (AttributeError "'NoneType' object has no attribute 'db_refs'") empty_world).
  reflexivity.
Defined.

(** ** Extraction over a list of statements *)

Section Extraction.

Context {Node Assembler : Type}.
Variable UNQUALIFIED_EDGES : gset string.
Variable PybelAssembler : list Statement -> outcome Assembler.
Variable make_model : Assembler -> outcome (@BELGraph Node).
Variable edge_to_bel : @BELGraph Node -> Node -> Node -> EdgeData -> string -> bool -> string.

Local Abbreviation get_rows' :=
  (_get_rows_from_statement UNQUALIFIED_EDGES PybelAssembler make_model edge_to_bel).
Local Abbreviation get_rows :=
  (get_rows_from_statement UNQUALIFIED_EDGES PybelAssembler make_model edge_to_bel).
Local Abbreviation get_all :=
  (get_rows_from_statements UNQUALIFIED_EDGES PybelAssembler make_model edge_to_bel).

Lemma get_rows_from_statements_cons (statement : Statement) (statements : list Statement)
    (duplicates : bool) (keep_only_pmid : option string) (w : World) :
  get_all (statement :: statements) duplicates keep_only_pmid w =
    match (get_rows statement duplicates keep_only_pmid).2 w with
    | (Returned rows, w1) =>
        match get_all statements duplicates keep_only_pmid w1 with
        | (Returned rows', w2) => (Returned (rows ++ rows')%list, w2)
        | (Raised e, w2) => (Raised e, w2)
        end
    | (Raised e, w1) => (Raised e, w1)
    end.
Proof.
  cbn [get_rows_from_statements]. unfold mbind, M_bind, bind.
  destruct ((get_rows statement duplicates keep_only_pmid).2 w) as [[rows|e] w1]; [|done].
  by destruct (get_all statements duplicates keep_only_pmid w1) as [[rows'|e] w2].
Qed.

Lemma get_rows_from_statements_app (l1 l2 : list Statement) (duplicates : bool)
    (keep_only_pmid : option string) (w : World) :
  get_all (l1 ++ l2) duplicates keep_only_pmid w =
    match get_all l1 duplicates keep_only_pmid w with
    | (Returned rows, w1) =>
        match get_all l2 duplicates keep_only_pmid w1 with
        | (Returned rows', w2) => (Returned (rows ++ rows')%list, w2)
        | (Raised e, w2) => (Raised e, w2)
        end
    | (Raised e, w1) => (Raised e, w1)
    end.
Proof.
  revert w. induction l1 as [|statement l1 IH]; intros w.
  - change (get_all [] duplicates keep_only_pmid w) with (@Returned (list Row) [], w).
    cbn [app]. by destruct (get_all l2 duplicates keep_only_pmid w) as [[rows'|e] w2].
  - change ((statement :: l1) ++ l2)%list with (statement :: (l1 ++ l2))%list.
    rewrite !get_rows_from_statements_cons.
    destruct ((get_rows statement duplicates keep_only_pmid).2 w) as [[rows|e] w1]; [|done].
    rewrite IH.
    destruct (get_all l1 duplicates keep_only_pmid w1) as [[rows1|e] w2]; [|done].
    destruct (get_all l2 duplicates keep_only_pmid w2) as [[rows2|e] w3]; [|done].
    by rewrite app_assoc.
Qed.

Lemma rows_of_edges_identity (statement : Statement) (graph : BELGraph)
    (es : list (Node * Node * EdgeData)) (row : Row) :
  row ∈ rows_of_edges UNQUALIFIED_EDGES edge_to_bel statement graph es ->
  row_uuid row = uuid statement ∧ row_belief row = PyFloat.round (belief statement) 2.
Proof.
  induction es as [|[[u v] data] es IH]; cbn [rows_of_edges].
  - by intros ?%elem_of_nil.
  - destruct (bool_decide _); [exact IH|].
    destruct (blacklisted _); [exact IH|].
    intros [->|Hin]%elem_of_cons; [by split|by apply IH].
Qed.

(** What one statement does: the rows it yields carry its uuid and its
    rounded belief, and the assembler is called on the statement as it is
    left, the constructor first and at most once. *)
Lemma get_rows_from_statement_run (statement : Statement) (duplicates : bool)
    (keep_only_pmid : option string) (w : World) :
  let after := (get_rows statement duplicates keep_only_pmid).1 in
  let result := (get_rows statement duplicates keep_only_pmid).2 w in
  (∀ rows row, result.1 = Returned rows -> row ∈ rows ->
     row_uuid row = uuid statement ∧
     row_belief row = PyFloat.round (belief statement) 2) ∧
  ∃ cs, calls result.2 = (calls w ++ cs)%list ∧
        (cs = [] ∨ cs = [Call_PybelAssembler [after]] ∨
         cs = [Call_PybelAssembler [after]; Call_make_model [after]]).
Proof.
  destruct (decide (kept_evidence statement = [])) as [Hkept|Hkept].
  - rewrite get_rows_from_statement_short by done. simpl. split.
    + by intros rows row [= <-] ?%elem_of_nil.
    + exists []. split; [by rewrite app_nil_r|by left].
  - rewrite get_rows_from_statement_long by done. cbn zeta.
    set (after := set_evidence statement _). cbn [fst snd].
    unfold _get_rows_from_statement, mbind, M_bind, bind.
    rewrite get_graph_from_statement_run.
    destruct (PybelAssembler [after]) as [pba|e1]; cbn [fst snd logged calls].
    2:{ split; [done|]. eexists. split; [reflexivity|]. right. by left. }
    assert (Hrows : ∀ (graph : @BELGraph Node) rows row,
              @Returned (list Row)
                (rows_of_edges UNQUALIFIED_EDGES edge_to_bel after graph (edges graph))
                = Returned rows -> row ∈ rows ->
              row_uuid row = uuid statement ∧
              row_belief row = PyFloat.round (belief statement) 2).
    { intros graph rows row [= <-] Hin. by apply rows_of_edges_identity in Hin. }
    destruct (make_model pba) as [graph|e2].
    + split; [apply Hrows|]. eexists. split; [reflexivity|]. right. by right.
    + destruct (is_AttributeError e2).
      * split; [apply Hrows|]. eexists. split; [reflexivity|]. right. by right.
      * split; [done|]. eexists. split; [reflexivity|]. right. by right.
Qed.

(** X7: every row extracted from a list of statements carries the uuid of
    one of them and that statement's belief rounded to two decimals. *)
Theorem rows_carry_statement_identity (statements : list Statement) (duplicates : bool)
    (keep_only_pmid : option string) (w w1 : World) (rows : list Row) :
  get_all statements duplicates keep_only_pmid w = (Returned rows, w1) ->
  ∀ row, row ∈ rows ->
    ∃ statement, statement ∈ statements ∧
      row_uuid row = uuid statement ∧
      row_belief row = PyFloat.round (belief statement) 2.
Proof.
  revert w w1 rows. induction statements as [|statement statements IH]; intros w w1 rows.
  - by intros [= <- _] row ?%elem_of_nil.
  - rewrite get_rows_from_statements_cons.
    destruct (get_rows_from_statement_run statement duplicates keep_only_pmid w)
      as [Hone _].
    destruct ((get_rows statement duplicates keep_only_pmid).2 w) as [[rows1|e] w2];
      [|done].
    specialize (IH w2).
    destruct (get_all statements duplicates keep_only_pmid w2) as [[rows2|e] w3]; [|done].
    intros [= <- _] row [Hin|Hin]%elem_of_app.
    + exists statement. split; [by left|]. by apply (Hone rows1).
    + destruct (IH w3 rows2 eq_refl row Hin) as (s & Hs & H).
      exists s. split; [by right|done].
Qed.

(** X8: consuming the rows of a list of statements stops at the first
    statement that raises: the exception reaches the caller and the
    statements after it are never assembled. *)
Theorem extraction_stops_at_first_error (before after : list Statement)
    (statement : Statement) (duplicates : bool) (keep_only_pmid : option string)
    (w w1 w2 : World) (rows : list Row) (e : exn) :
  get_all before duplicates keep_only_pmid w = (Returned rows, w1) ->
  (get_rows statement duplicates keep_only_pmid).2 w1 = (Raised e, w2) ->
  get_all (before ++ statement :: after) duplicates keep_only_pmid w = (Raised e, w2).
Proof.
  intros Hbefore Hraise.
  by rewrite get_rows_from_statements_app, Hbefore, get_rows_from_statements_cons, Hraise.
Qed.

(** X9: extraction constructs at most one assembler per statement, and every
    call it makes is on a single statement. *)
Theorem one_assembler_per_statement (statements : list Statement) (duplicates : bool)
    (keep_only_pmid : option string) (w : World) :
  ∃ cs,
    calls (get_all statements duplicates keep_only_pmid w).2 = (calls w ++ cs)%list ∧
    (length (constructor_calls cs) ≤ length statements)%nat ∧
    (length cs ≤ 2 * length (constructor_calls cs))%nat ∧
    Forall (fun c => ∃ statement,
              c = Call_PybelAssembler [statement] ∨ c = Call_make_model [statement]) cs.
Proof.
  revert w. induction statements as [|statement statements IH]; intros w.
  - exists []. simpl. split; [by rewrite app_nil_r|]. split; [lia|]. split; [lia|constructor].
  - rewrite get_rows_from_statements_cons.
    destruct (get_rows_from_statement_run statement duplicates keep_only_pmid w)
      as [_ (cs1 & Hcalls1 & Hcs1)].
    set (after := (get_rows statement duplicates keep_only_pmid).1) in *.
    assert (Hone : (length (constructor_calls cs1) ≤ 1)%nat ∧
                   (length cs1 ≤ 2 * length (constructor_calls cs1))%nat ∧
                   Forall (fun c => ∃ statement,
                             c = Call_PybelAssembler [statement] ∨
                             c = Call_make_model [statement]) cs1).
    { destruct Hcs1 as [-> | [-> | ->]]; simpl; (split; [lia|]); (split; [lia|]);
        repeat constructor; exists after; auto. }
    destruct Hone as (Hn1 & Hm1 & Hf1).
    destruct ((get_rows statement duplicates keep_only_pmid).2 w) as [[rows1|e] w1];
      cbn [snd] in Hcalls1.
    2:{ exists cs1. cbn [snd length]. split; [done|]. split; [lia|]. by split. }
    destruct (IH w1) as (cs2 & Hcalls2 & Hn2 & Hm2 & Hf2).
    exists (cs1 ++ cs2)%list.
    assert (Hcount : constructor_calls (cs1 ++ cs2) =
                     (constructor_calls cs1 ++ constructor_calls cs2)%list)
      by apply List.filter_app.
    rewrite Hcount, !length_app. cbn [length].
    split; [|split; [lia|split; [lia|by apply Forall_app]]].
    destruct (get_all statements duplicates keep_only_pmid w1) as [[rows2|e] w2];
      cbn [snd] in *; by rewrite Hcalls2, Hcalls1, app_assoc.
Qed.

(** Statements without usable evidence yield no rows and no call. *)
Lemma get_rows_from_statements_unusable (statements : list Statement) (duplicates : bool)
    (keep_only_pmid : option string) (w : World) :
  Forall (fun statement => kept_evidence statement = []) statements ->
  get_all statements duplicates keep_only_pmid w = (Returned [], w).
Proof.
  induction 1 as [|statement statements Hkept _ IH]; [done|].
  rewrite get_rows_from_statements_cons, get_rows_from_statement_short by done.
  cbn [snd]. unfold ret at 1. by rewrite IH.
Qed.

End Extraction.

Lemma extraction_stops_at_first_error_witness :
  get_rows_from_statements sample_unqualified sample_assembler crashing_make_model
    sample_edge_to_bel [unusable_statement; sample_statement; half_belief_statement]
    false None empty_world =
  (Raised (OtherException "ValueError" "unhandled statement type"),
   logged empty_world
     [Call_PybelAssembler [set_evidence sample_statement [sample_evidence]];
      Call_make_model [set_evidence sample_statement [sample_evidence]]]).
Proof.
  apply (extraction_stops_at_first_error sample_unqualified sample_assembler
           crashing_make_model sample_edge_to_bel [unusable_statement]
           [half_belief_statement] sample_statement false None
           empty_world empty_world _ [] _);
    vm_compute; reflexivity.
Defined.

Lemma rows_carry_statement_identity_witness :
  ∃ statement, statement ∈ [half_belief_statement; sample_statement] ∧
    row_uuid sample_row = uuid statement ∧
    row_belief sample_row = PyFloat.round (belief statement) 2.
Proof.
  apply (rows_carry_statement_identity sample_unqualified sample_assembler
           sample_make_model sample_edge_to_bel [half_belief_statement; sample_statement]
           false None empty_world
           (get_rows_from_statements sample_unqualified sample_assembler sample_make_model
              sample_edge_to_bel [half_belief_statement; sample_statement] false None
              empty_world).2
           [half_belief_row; sample_row]).
  - vm_compute. reflexivity.
  - apply elem_of_cons. right. apply elem_of_cons. by left.
Defined.

(** ** What a run of [print_statements] writes *)

Lemma occurrences_app (c : Ascii.ascii) (s1 s2 : string) :
  occurrences c (s1 +:+ s2) = (occurrences c s1 + occurrences c s2)%nat.
Proof.
  induction s1 as [|d s1 IH]; simpl; [done|]. rewrite IH. lia.
Qed.

Lemma limited_submseteq {A} (limit : option Z) (l : list A) : limited limit l ⊆+ l.
Proof.
  destruct limit as [n|]; simpl; [|done].
  unfold slice_to. destruct (n <? 0); apply submseteq_take.
Qed.

Section Output.

Context {Node Assembler : Type}.
Variable UNQUALIFIED_EDGES : gset string.
Variable PybelAssembler : list Statement -> outcome Assembler.
Variable make_model : Assembler -> outcome (@BELGraph Node).
Variable edge_to_bel : @BELGraph Node -> Node -> Node -> EdgeData -> string -> bool -> string.
Variable run_preassembly : list Statement -> list Statement.
Variable filter_belief : list Statement -> PyFloat.float -> list Statement.

Local Abbreviation get_all :=
  (get_rows_from_statements UNQUALIFIED_EDGES PybelAssembler make_model edge_to_bel).
Local Abbreviation print_all :=
  (print_statements UNQUALIFIED_EDGES PybelAssembler make_model edge_to_bel
     run_preassembly filter_belief).
Local Abbreviation prepared := (preassembled run_preassembly filter_belief).

(** X10: when no statement that reaches extraction has evidence passing the
    evidence filter (an empty list of statements is the simplest case), the
    run writes the header line and nothing else, calls no assembler and
    returns. *)
Theorem no_usable_evidence_header_only {K} `{PyLt K} (statements : list Statement)
    (sep : option string) (limit : option Z) (duplicates : bool)
    (keep_only_pmid : option string) (sort_key : Row -> K)
    (minimum_belief : option PyFloat.float) (w : World) :
  Forall (fun statement => kept_evidence statement = [])
         (prepared minimum_belief statements) ->
  print_all statements sep limit duplicates keep_only_pmid sort_key minimum_belief w =
    (Returned tt, written w [join (or_default sep TAB) header]).
Proof.
  intros Hnone.
  rewrite print_statements_run, get_rows_from_statements_unusable by done.
  assert (Hlim : limited limit (sorted (@nil Row) sort_key) = [])
    by (destruct limit as [n|]; [unfold limited, slice_to; destruct (n <? 0); apply take_nil|done]).
  rewrite Hlim. simpl. unfold written. simpl. by rewrite app_nil_r.
Qed.

(** X11: when extraction raises, the run raises the same exception after
    the header line alone has been written: rows are written only once all
    of them have been extracted. *)
Theorem extraction_error_leaves_header {K} `{PyLt K} (statements : list Statement)
    (sep : option string) (limit : option Z) (duplicates : bool)
    (keep_only_pmid : option string) (sort_key : Row -> K)
    (minimum_belief : option PyFloat.float) (w w1 : World) (e : exn) :
  get_all (prepared minimum_belief statements) duplicates keep_only_pmid
    (written w [join (or_default sep TAB) header]) = (Raised e, w1) ->
  print_all statements sep limit duplicates keep_only_pmid sort_key minimum_belief w =
    (Raised e, w1) ∧
  output w1 = (output w ++ [join (or_default sep TAB) header])%list.
Proof.
  intros Hraise. rewrite print_statements_run, Hraise. split; [done|].
  pose proof (get_rows_from_statements_output UNQUALIFIED_EDGES PybelAssembler make_model
                edge_to_bel (prepared minimum_belief statements) duplicates keep_only_pmid
                (written w [join (or_default sep TAB) header])) as Hout.
  by rewrite Hraise in Hout.
Qed.

(** X12: a negative limit [N] follows Python slicing: the last [-N] of the
    sorted rows are not written (none is written when there are no more
    than [-N]). *)
Theorem negative_limit_drops_last_rows {K} `{PyLt K} (statements : list Statement)
    (sep : option string) (N : Z) (duplicates : bool)
    (keep_only_pmid : option string) (sort_key : Row -> K)
    (minimum_belief : option PyFloat.float) (w w1 : World) (rows : list Row) :
  N < 0 ->
  get_all (prepared minimum_belief statements) duplicates keep_only_pmid
    (written w [join (or_default sep TAB) header]) = (Returned rows, w1) ->
  output (print_all statements sep (Some N) duplicates keep_only_pmid sort_key
            minimum_belief w).2 =
    (output w ++
     join (or_default sep TAB) header ::
     map (data_line (or_default sep TAB))
         (take (length rows - Z.to_nat (- N)) (sorted rows sort_key)))%list.
Proof.
  intros HN Hrows. rewrite print_statements_run, Hrows.
  pose proof (get_rows_from_statements_output UNQUALIFIED_EDGES PybelAssembler make_model
                edge_to_bel (prepared minimum_belief statements) duplicates keep_only_pmid
                (written w [join (or_default sep TAB) header])) as Hout.
  rewrite Hrows in Hout. cbn [snd written output] in *. rewrite Hout, <- app_assoc.
  cbn [limited]. unfold slice_to. rewrite (proj2 (Z.ltb_lt N 0)) by done.
  rewrite (Permutation_length (sorted_perm sort_key rows)).
  replace (Z.to_nat (Z.of_nat (length rows) + N)) with (length rows - Z.to_nat (- N))%nat
    by lia.
  done.
Qed.

(** X13: whatever the sort key and the limit, the data lines written are
    lines of extracted rows, none more often than it was extracted; without
    a limit they are those lines exactly, in some order. *)
Theorem written_lines_are_extracted_rows {K} `{PyLt K} (statements : list Statement)
    (sep : option string) (limit : option Z) (duplicates : bool)
    (keep_only_pmid : option string) (sort_key : Row -> K)
    (minimum_belief : option PyFloat.float) (w w1 : World) (rows : list Row) :
  get_all (prepared minimum_belief statements) duplicates keep_only_pmid
    (written w [join (or_default sep TAB) header]) = (Returned rows, w1) ->
  ∃ lines,
    output (print_all statements sep limit duplicates keep_only_pmid sort_key
              minimum_belief w).2 =
      (output w ++ join (or_default sep TAB) header :: lines)%list ∧
    lines ⊆+ map (data_line (or_default sep TAB)) rows ∧
    (limit = None -> lines ≡ₚ map (data_line (or_default sep TAB)) rows).
Proof.
  intros Hrows. rewrite print_statements_run, Hrows.
  pose proof (get_rows_from_statements_output UNQUALIFIED_EDGES PybelAssembler make_model
                edge_to_bel (prepared minimum_belief statements) duplicates keep_only_pmid
                (written w [join (or_default sep TAB) header])) as Hout.
  rewrite Hrows in Hout. cbn [snd written output] in *. rewrite Hout, <- app_assoc.
  eexists. split; [reflexivity|]. split.
  - apply fmap_submseteq. etrans; [apply limited_submseteq|].
    by rewrite sorted_perm.
  - intros ->. cbn [limited]. by rewrite sorted_perm.
Qed.

End Output.

(** X14: a row whose fields before the edge text hold no tab is written, with
    the tab as separator, as six columns followed by the columns of the
    edge text: nine columns for a text of subject, predicate and object,
    under a header line of eight. *)
Theorem data_line_columns (row : Row) :
  Forall (fun field => occurrences (Ascii.ascii_of_nat 9) field = 0%nat)
         (take 6 (row_fields row)) ->
  columns (join TAB header) = 8%nat ∧
  columns (data_line TAB row) = (6 + columns (row_bel row))%nat.
Proof.
  intros Hfields. split; [reflexivity|].
  unfold row_fields in Hfields. cbn [take firstn] in Hfields.
  rewrite !Forall_cons in Hfields.
  destruct Hfields as (H1 & H2 & H3 & H4 & H5 & H6 & _).
  unfold columns, data_line. rewrite !occurrences_app, H1, H2, H3, H4, H5, H6.
  change (occurrences (Ascii.ascii_of_nat 9) TAB) with 1%nat. lia.
Qed.

Lemma no_usable_evidence_header_only_witness :
  sample_run [unusable_statement; unusable_statement] None (Some 5) =
    (Returned tt, written empty_world [join TAB header]).
Proof.
  apply (no_usable_evidence_header_only sample_unqualified sample_assembler
           sample_make_model sample_edge_to_bel (fun statements => statements)
           sample_filter_belief [unusable_statement; unusable_statement] None (Some 5)
           false None attrgetter_uuid_pmid None empty_world).
  repeat constructor.
Defined.

Lemma extraction_error_leaves_header_witness :
  output (print_statements sample_unqualified sample_assembler crashing_make_model
            sample_edge_to_bel (fun statements => statements) sample_filter_belief
            [half_belief_statement] None None false None attrgetter_uuid_pmid None
            empty_world).2 = [join TAB header].
Proof.
  edestruct (extraction_error_leaves_header sample_unqualified sample_assembler
               crashing_make_model sample_edge_to_bel (fun statements => statements)
               sample_filter_belief [half_belief_statement] None None false None
               attrgetter_uuid_pmid None empty_world
               (get_rows_from_statements sample_unqualified sample_assembler
                  crashing_make_model sample_edge_to_bel [half_belief_statement] false None
                  (written empty_world [join TAB header])).2
               (OtherException "ValueError" "unhandled statement type"))
    as [Hrun Hout].
  - vm_compute. reflexivity.
  - rewrite Hrun. exact Hout.
Defined.

Lemma negative_limit_drops_last_rows_witness :
  -1 < 0 ∧
  output (sample_run [half_belief_statement; sample_statement] None (Some (-1))).2 =
    [join TAB header; data_line TAB sample_row].
Proof.
  split; [lia|]. unfold sample_run.
  rewrite (negative_limit_drops_last_rows sample_unqualified sample_assembler
             sample_make_model sample_edge_to_bel (fun statements => statements)
             sample_filter_belief [half_belief_statement; sample_statement] None (-1)
             false None attrgetter_uuid_pmid None empty_world
             (get_rows_from_statements sample_unqualified sample_assembler
                sample_make_model sample_edge_to_bel
                [half_belief_statement; sample_statement] false None
                (written empty_world [join TAB header])).2
             [half_belief_row; sample_row]).
  - vm_compute. reflexivity.
  - lia.
  - vm_compute. reflexivity.
Defined.

Lemma written_lines_are_extracted_rows_witness :
  ∃ lines,
    output (sample_run [half_belief_statement; sample_statement] None None).2 =
      join TAB header :: lines ∧
    lines ≡ₚ [data_line TAB half_belief_row; data_line TAB sample_row].
Proof.
  unfold sample_run.
  edestruct (written_lines_are_extracted_rows sample_unqualified sample_assembler
               sample_make_model sample_edge_to_bel (fun statements => statements)
               sample_filter_belief [half_belief_statement; sample_statement] None None
               false None attrgetter_uuid_pmid None empty_world
               (get_rows_from_statements sample_unqualified sample_assembler
                  sample_make_model sample_edge_to_bel
                  [half_belief_statement; sample_statement] false None
                  (written empty_world [join TAB header])).2
               [half_belief_row; sample_row])
    as (lines & Hout & _ & Hperm).
  - vm_compute. reflexivity.
  - exists lines. split; [exact Hout|]. by apply Hperm.
Defined.

Lemma data_line_columns_witness :
  columns (data_line TAB sample_row) = 9%nat.
Proof.
  apply (data_line_columns sample_row).
  repeat constructor.
Defined.

(** ** Retrieval *)

(** *** Stripping *)

Lemma drop_prefix_spec (p l r : list Ascii.ascii) :
  PyStr.drop_prefix p l = Some r ↔ l = (p ++ r)%list.
Proof.
  revert l. induction p as [|c p IH]; intros [|d l]; simpl.
  - split; [by intros [= <-]|by intros <-].
  - split; [by intros [= <-]|by intros <-].
  - split; done.
  - destruct (Ascii.eqb_spec c d) as [->|Hne].
    + rewrite IH. split; [by intros ->|by intros [= ->]].
    + split; [done|]. intros [= ? _]. congruence.
Qed.

Lemma drop_first_Some (seqs : list (list Ascii.ascii)) (l r : list Ascii.ascii) :
  PyStr.drop_first seqs l = Some r -> ∃ p, p ∈ seqs ∧ l = (p ++ r)%list.
Proof.
  induction seqs as [|p seqs IH]; simpl; [done|].
  destruct (PyStr.drop_prefix p l) as [l'|] eqn:Hp.
  - intros [= <-]. exists p. split; [by left|by apply drop_prefix_spec].
  - intros (q & Hq & Hl)%IH. exists q. split; [by right|done].
Qed.

Lemma drop_first_None (seqs : list (list Ascii.ascii)) (l : list Ascii.ascii) :
  PyStr.drop_first seqs l = None -> ∀ p r, p ∈ seqs -> l ≠ (p ++ r)%list.
Proof.
  induction seqs as [|q seqs IH]; simpl; [by intros _ p r ?%elem_of_nil|].
  destruct (PyStr.drop_prefix q l) as [l'|] eqn:Hq; [done|].
  intros Hnone p r [->|Hin]%elem_of_cons Hl.
  - apply drop_prefix_spec in Hl. congruence.
  - by apply (IH Hnone p r).
Qed.

(** The scan drops a run of the sequences and stops where none of them
    starts, provided the fuel covers the length. *)
Lemma lstrip_with_spec (seqs : list (list Ascii.ascii)) (fuel : nat)
    (l : list Ascii.ascii) :
  Forall (fun p => (0 < length p)%nat) seqs -> (length l ≤ fuel)%nat ->
  ∃ cps, Forall (fun cp => cp ∈ seqs) cps ∧
    l = (concat cps ++ PyStr.lstrip_with seqs fuel l)%list ∧
    PyStr.drop_first seqs (PyStr.lstrip_with seqs fuel l) = None.
Proof.
  intros Hpos. revert l. induction fuel as [|fuel IH]; intros l Hlen; simpl.
  - exists []. split; [constructor|]. split; [done|].
    destruct (PyStr.drop_first seqs l) as [r|] eqn:Hd; [|done].
    apply drop_first_Some in Hd as (p & Hp & ->).
    rewrite Forall_forall in Hpos. apply Hpos in Hp. rewrite length_app in Hlen. lia.
  - destruct (PyStr.drop_first seqs l) as [r|] eqn:Hd.
    + apply drop_first_Some in Hd as (p & Hp & ->).
      destruct (IH r) as (cps & Hcps & Hr & Hstop).
      { rewrite Forall_forall in Hpos. apply Hpos in Hp. rewrite length_app in Hlen. lia. }
      exists (p :: cps). split; [by constructor|]. split; [|done].
      simpl. rewrite <- app_assoc. by rewrite <- Hr.
    + exists []. by split; [constructor|].
Qed.

Lemma whitespace_positive : Forall (fun p => (0 < length p)%nat) PyStr.WHITESPACE.
Proof. repeat constructor. Qed.

Lemma lstrip_spec (l : list Ascii.ascii) :
  ∃ lead, whitespace_run lead ∧ l = (lead ++ PyStr.lstrip l)%list ∧
          ¬ starts_with_whitespace (PyStr.lstrip l).
Proof.
  destruct (lstrip_with_spec PyStr.WHITESPACE (length l) l whitespace_positive)
    as (cps & Hcps & Hl & Hstop); [done|].
  exists (concat cps). split; [by exists cps|]. split; [done|].
  intros (cp & rest & Hcp & Hrest). by apply (drop_first_None _ _ Hstop cp rest).
Qed.

Lemma rstrip_spec (l : list Ascii.ascii) :
  ∃ trail, whitespace_run trail ∧ l = (PyStr.rstrip l ++ trail)%list ∧
           ¬ ends_with_whitespace (PyStr.rstrip l).
Proof.
  destruct (lstrip_with_spec (map reverse PyStr.WHITESPACE) (length l) (reverse l))
    as (cps & Hcps & Hl & Hstop).
  { apply Forall_forall. intros p (q & -> & Hq)%list_elem_of_fmap.
    rewrite length_reverse. pose proof whitespace_positive as Hpos.
    rewrite Forall_forall in Hpos. by apply Hpos. }
  { by rewrite length_reverse. }
  fold (PyStr.rstrip l) in *. unfold PyStr.rstrip.
  set (kept := PyStr.lstrip_with _ _ _) in *.
  exists (reverse (concat cps)). split; [|split].
  - exists (reverse (map reverse cps)). split.
    + apply Forall_reverse, Forall_fmap. eapply Forall_impl; [exact Hcps|].
      intros cp (q & -> & Hq)%list_elem_of_fmap. simpl. by rewrite reverse_involutive.
    + clear. induction cps as [|cp cps IH]; [done|].
      simpl. rewrite reverse_app, reverse_cons, concat_app, IH. simpl.
      by rewrite app_nil_r.
  - rewrite <- reverse_app, <- Hl. by rewrite reverse_involutive.
  - intros (cp & rest & Hcp & Hrest).
    apply (drop_first_None _ _ Hstop (reverse cp) (reverse rest)).
    + apply list_elem_of_fmap. by exists cp.
    + rewrite <- reverse_app, <- Hrest. by rewrite reverse_involutive.
Qed.

Lemma strip_spec (s : string) : stripped_of s (PyStr.strip s).
Proof.
  unfold stripped_of, PyStr.strip.
  rewrite String.list_ascii_of_string_of_list_ascii.
  destruct (lstrip_spec (String.list_ascii_of_string s)) as (lead & Hlead & Hl & Hstart).
  destruct (rstrip_spec (PyStr.lstrip (String.list_ascii_of_string s)))
    as (trail & Htrail & Hr & Hend).
  exists lead, trail. split; [done|]. split; [done|]. split; [by rewrite <- Hr|].
  split; [|done].
  intros (cp & rest & Hcp & Hrest). apply Hstart.
  exists cp, (rest ++ trail)%list. split; [done|].
  rewrite Hr at 1. rewrite Hrest. by rewrite <- app_assoc.
Qed.

(** X15: the identifiers asked for are, one for each PubMed identifier given
    and in the order given, the pair of 'pmid' and the identifier without
    the whitespace around it; a single string counts as a list of one. *)
Theorem paper_ids_are_stripped_pmids (pmids : str_or_list) :
  Forall2 (fun given id => id.1 = "pmid" ∧ stripped_of given id.2)
          (as_list pmids) (paper_ids pmids).
Proof.
  destruct pmids as [s|l]; simpl.
  - repeat constructor. apply strip_spec.
  - induction l as [|p l IH]; simpl; constructor; [|done].
    split; [done|apply strip_spec].
Qed.

(** ** Statement objects and generators *)

Section Objects.

Context {Node Assembler : Type}.
Variable UNQUALIFIED_EDGES : gset string.
Variable PybelAssembler : list Statement -> outcome Assembler.
Variable make_model : Assembler -> outcome (@BELGraph Node).
Variable edge_to_bel : @BELGraph Node -> Node -> Node -> EdgeData -> string -> bool -> string.

Local Abbreviation body :=
  (get_rows_from_statement UNQUALIFIED_EDGES PybelAssembler make_model edge_to_bel).
Local Abbreviation rows_of := (rows_of_edges UNQUALIFIED_EDGES edge_to_bel).
Local Abbreviation resume := (Obj.resume UNQUALIFIED_EDGES edge_to_bel).
Local Abbreviation next :=
  (Obj.next UNQUALIFIED_EDGES PybelAssembler make_model edge_to_bel).
Local Abbreviation exhaust :=
  (Obj.exhaust UNQUALIFIED_EDGES PybelAssembler make_model edge_to_bel).
Local Abbreviation consume :=
  (Obj.consume UNQUALIFIED_EDGES PybelAssembler make_model edge_to_bel).
Local Abbreviation consumes :=
  (Obj.consumes UNQUALIFIED_EDGES PybelAssembler make_model edge_to_bel).

Lemma assign_evidence_same (statement : Obj.ref) (ev : list Evidence) (σ : Obj.Store) :
  Obj.heap (Obj.assign_evidence statement ev σ) statement =
    set_evidence (Obj.heap σ statement) ev.
Proof. apply fn_lookup_insert. Qed.

Lemma assign_evidence_other (statement other : Obj.ref) (ev : list Evidence)
    (σ : Obj.Store) :
  other ≠ statement ->
  Obj.heap (Obj.assign_evidence statement ev σ) other = Obj.heap σ other.
Proof. intros Hne. by apply fn_lookup_insert_ne. Qed.

(** The loop up to its next [yield]: it stops when the edges left give no
    row, and otherwise yields the first row they give and keeps the rest;
    the store is not touched. *)
Lemma resume_spec (statement : Obj.ref) (graph : BELGraph)
    (es : list (Node * Node * EdgeData)) (σ : Obj.Store) :
  (rows_of (Obj.heap σ statement) graph es = [] ∧
   resume statement graph es σ = (Returned None, Obj.Finished, σ)) ∨
  (∃ row es',
     resume statement graph es σ =
       (Returned (Some row), Obj.Suspended statement graph es', σ) ∧
     rows_of (Obj.heap σ statement) graph es =
       row :: rows_of (Obj.heap σ statement) graph es' ∧
     (length es' < length es)%nat).
Proof.
  induction es as [|[[u v] data] es IH]; cbn [Obj.resume rows_of_edges].
  - by left.
  - destruct (bool_decide (RELATION data ∈ UNQUALIFIED_EDGES)).
    { destruct IH as [IH|(row & es' & Hr & Hrows & Hlen)]; [by left|].
      right. exists row, es'. split; [done|]. split; [done|]. simpl. lia. }
    destruct (blacklisted (edge_to_bel graph u v data TAB true)).
    { destruct IH as [IH|(row & es' & Hr & Hrows & Hlen)]; [by left|].
      right. exists row, es'. split; [done|]. split; [done|]. simpl. lia. }
    right. eexists _, es. split; [reflexivity|]. split; [reflexivity|]. simpl. lia.
Qed.

(** Advancing a generator that has started leaves the store as it is and
    gives a generator that has started. *)
Lemma next_started (g : Obj.generator) (σ : Obj.Store) :
  Obj.started g -> (next g σ).2 = σ ∧ Obj.started (next g σ).1.2.
Proof.
  destruct g as [statement duplicates keep_only_pmid|statement graph es|]; [done| |done].
  intros _. cbn [Obj.next].
  by destruct (resume_spec statement graph es σ) as [[_ ->]|(row & es' & -> & _)].
Qed.

Lemma exhaust_suspended (statement : Obj.ref) (graph : BELGraph) (fuel : nat)
    (es : list (Node * Node * EdgeData)) (σ : Obj.Store) :
  (length es < fuel)%nat ->
  exhaust fuel (Obj.Suspended statement graph es) σ =
    (Returned (rows_of (Obj.heap σ statement) graph es), σ).
Proof.
  revert es. induction fuel as [|fuel IH]; intros es Hlen; [lia|].
  cbn [Obj.exhaust Obj.next].
  destruct (resume_spec statement graph es σ) as [[-> ->]|(row & es' & -> & -> & Hlen')].
  - done.
  - rewrite IH by lia. done.
Qed.

Lemma exhaust_finished (fuel : nat) (σ : Obj.Store) :
  exhaust fuel (@Obj.Finished Node) σ = (Returned [], σ).
Proof. by destruct fuel. Qed.

(** The rows a started generator still yields, and [list] of it. *)
Lemma exhaust_started (g : Obj.generator) (σ : Obj.Store) :
  Obj.started g ->
  exhaust (Obj.steps_left g) g σ =
    (Returned match g with
              | Obj.Suspended statement graph es => rows_of (Obj.heap σ statement) graph es
              | _ => []
              end, σ).
Proof.
  destruct g as [statement duplicates keep_only_pmid|statement graph es|]; [done| |].
  - intros _. apply exhaust_suspended. simpl. lia.
  - intros _. apply exhaust_finished.
Qed.

Lemma exhaust_consumes (fuel : nat) (g : Obj.generator) (σ : Obj.Store) :
  Obj.started g -> (Obj.steps_left g ≤ fuel)%nat ->
  consumes g σ (exhaust fuel g σ).1 (exhaust fuel g σ).2.
Proof.
  revert g. induction fuel as [|fuel IH]; intros g Hg Hfuel.
  { destruct g; simpl in *; lia || done. }
  destruct g as [statement duplicates keep_only_pmid|statement graph es|]; [done| |].
  - cbn [Obj.exhaust]. 
    pose proof (resume_spec statement graph es σ) as Hr.
    change (next (Obj.Suspended statement graph es) σ) with (resume statement graph es σ).
    destruct Hr as [[_ Hr]|(row & es' & Hr & _ & Hlen)].
    + rewrite Hr. eapply Obj.consumes_stop. exact Hr.
    + rewrite Hr.
      pose proof (IH (Obj.Suspended statement graph es') I) as IH'.
      simpl in Hfuel. specialize (IH' ltac:(simpl; lia)).
      destruct (exhaust fuel (Obj.Suspended statement graph es') σ) as [[rows|e] σ'];
        cbn [fst snd] in *.
      * eapply Obj.consumes_yield; [exact Hr|exact IH'].
      * eapply Obj.consumes_yield_raise; [exact Hr|exact IH'].
  - cbn [Obj.exhaust Obj.next]. by eapply Obj.consumes_stop.
Qed.

Lemma set_evidence_twice (statement : Statement) (ev ev' : list Evidence) :
  set_evidence (set_evidence statement ev) ev' = set_evidence statement ev'.
Proof. done. Qed.

(** The first advance of the generator runs the body on the object: the
    object becomes what the body leaves, and the generator finishes at once
    when no evidence passes the filter and hands over to
    [_get_rows_from_statement] otherwise. *)
Lemma start_spec (statement : Obj.ref) (duplicates : bool)
    (keep_only_pmid : option string) (σ : Obj.Store) :
  ∃ σ',
    (∀ r, Obj.heap σ' r =
          if decide (r = statement)
          then (body (Obj.heap σ statement) duplicates keep_only_pmid).1
          else Obj.heap σ r) ∧
    Obj.world σ' = Obj.world σ ∧
    next (Obj.Created statement duplicates keep_only_pmid) σ =
      if decide (kept_evidence (Obj.heap σ statement) = [])
      then (Returned None, Obj.Finished, σ')
      else Obj._get_rows_from_statement UNQUALIFIED_EDGES PybelAssembler make_model
             edge_to_bel statement σ'.
Proof.
  cbn [Obj.next]. unfold Obj.start. cbn zeta.
  rewrite !assign_evidence_same. cbn [evidence set_evidence].
  fold (kept_evidence (Obj.heap σ statement)).
  destruct (decide (kept_evidence (Obj.heap σ statement) = [])) as [Hkept|Hkept].
  - rewrite Hkept. cbn [length Nat.eqb]. eexists. split; [|split; [|reflexivity]]; [|done].
    intros r. rewrite get_rows_from_statement_short by done. cbn [fst].
    destruct (decide (r = statement)) as [->|Hne].
    + by rewrite assign_evidence_same.
    + by rewrite assign_evidence_other.
  - destruct (kept_evidence (Obj.heap σ statement)) as [|e kept] eqn:Hk; [done|].
    cbn [length Nat.eqb]. eexists. split; [|split; [|reflexivity]].
    + intros r. rewrite get_rows_from_statement_long by by rewrite Hk.
      cbn [fst]. unfold matching_evidence. rewrite Hk.
      destruct (decide (r = statement)) as [->|Hne].
      * destruct keep_only_pmid as [p|], duplicates; cbn [negb];
          rewrite ?assign_evidence_same, ?set_evidence_twice; cbn [evidence set_evidence];
          rewrite ?assign_evidence_same, ?set_evidence_twice; cbn [evidence set_evidence];
          rewrite ?assign_evidence_same, ?set_evidence_twice; reflexivity.
      * destruct keep_only_pmid as [p|], duplicates; cbn [negb];
          rewrite ?assign_evidence_other by done; reflexivity.
    + by destruct keep_only_pmid as [p|], duplicates.
Qed.

(** All that a generator does to the world it does at its first advance;
    consuming it gives what the body gives, on the object. *)
Lemma consume_created (statement : Obj.ref) (duplicates : bool)
    (keep_only_pmid : option string) (σ : Obj.Store) :
  let g := Obj.Created statement duplicates keep_only_pmid in
  let after := (body (Obj.heap σ statement) duplicates keep_only_pmid).1 in
  let run := (body (Obj.heap σ statement) duplicates keep_only_pmid).2 (Obj.world σ) in
  (∀ r, Obj.heap (next g σ).2 r = if decide (r = statement) then after else Obj.heap σ r) ∧
  Obj.world (next g σ).2 = run.2 ∧
  (consume g σ).2 = (next g σ).2 ∧
  (consume g σ).1 = run.1.
Proof.
  cbn zeta. destruct (start_spec statement duplicates keep_only_pmid σ)
    as (σ' & Hheap & Hworld & Hnext).
  unfold Obj.consume. rewrite Hnext.
  assert (Hafter : Obj.heap σ' statement =
                   (body (Obj.heap σ statement) duplicates keep_only_pmid).1).
  { rewrite Hheap. by rewrite decide_True. }
  destruct (decide (kept_evidence (Obj.heap σ statement) = [])) as [Hkept|Hkept].
  - cbn [fst snd]. split; [exact Hheap|].
    rewrite get_rows_from_statement_short by done. by rewrite Hworld.
  - rewrite get_rows_from_statement_long in * by done. cbn [fst snd] in *.
    set (after := set_evidence _ _) in *.
    unfold Obj._get_rows_from_statement, _get_rows_from_statement, mbind, M_bind, bind.
    rewrite Hafter, Hworld.
    destruct (get_graph_from_statement PybelAssembler make_model after (Obj.world σ))
      as [[graph|e] w]; [|by cbn [fst snd]].
    destruct (resume_spec statement graph (edges graph) (Obj.with_world σ' w))
      as [[Hrows Hr]|(row & es' & Hr & Hrows & _)]; rewrite Hr; cbn [fst snd].
    + cbn [Obj.heap Obj.with_world] in Hrows. rewrite Hafter in Hrows.
      split; [exact Hheap|]. split; [done|]. split; [done|]. by rewrite Hrows.
    + rewrite exhaust_suspended by (simpl; lia). cbn [fst snd].
      cbn [Obj.heap Obj.with_world] in *. rewrite Hafter in Hrows.
      split; [exact Hheap|]. split; [done|]. split; [done|].
      by rewrite Hrows, Hafter.
Qed.

Lemma next_is_started (g : Obj.generator) (σ : Obj.Store) :
  Obj.started (next g σ).1.2.
Proof.
  destruct g as [statement duplicates keep_only_pmid|statement graph es|].
  - destruct (start_spec statement duplicates keep_only_pmid σ) as (σ' & _ & _ & ->).
    destruct (decide _); [done|].
    unfold Obj._get_rows_from_statement.
    destruct (get_graph_from_statement _ _ _ _) as [[graph|e] w]; [|done].
    by destruct (resume_spec statement graph (edges graph) (Obj.with_world σ' w))
      as [[_ ->]|(row & es' & -> & _)].
  - by apply next_started.
  - done.
Qed.

(** [Obj.consume] is the iteration of [next] to the end. *)
Lemma consume_consumes (g : Obj.generator) (σ : Obj.Store) :
  consumes g σ (consume g σ).1 (consume g σ).2.
Proof.
  unfold Obj.consume. pose proof (next_is_started g σ) as Hg'.
  destruct (next g σ) as [[[[row|]|e] g'] σ'] eqn:Hnext; cbn [fst snd] in *.
  - pose proof (exhaust_consumes (Obj.steps_left g') g' σ' Hg' ltac:(lia)) as Hrest.
    destruct (exhaust (Obj.steps_left g') g' σ') as [[rows|e] σ'']; cbn [fst snd] in *.
    + eapply Obj.consumes_yield; [exact Hnext|exact Hrest].
    + eapply Obj.consumes_yield_raise; [exact Hnext|exact Hrest].
  - eapply Obj.consumes_stop. exact Hnext.
  - eapply Obj.consumes_raise. exact Hnext.
Qed.

(** C4: the call creates a generator and changes nothing.  Once the
    generator has been advanced, only the evidence of that statement has
    changed: the other objects, its uuid and its belief are as before and
    nothing is written; without duplicates the evidence left is the first
    entry, if any, that passes the blacklists and the optional document
    filter; every call of the assembler is on the statement as it is left
    and the rows the generator yields are those of that statement, so they
    derive from that evidence; consuming the generator to the end changes
    nothing more. *)
Theorem get_rows_from_statement_frame (statement : Obj.ref) (duplicates : bool)
    (keep_only_pmid : option string) (σ : Obj.Store) :
  let called := @Obj.get_rows_from_statement Node statement duplicates keep_only_pmid σ in
  let advanced := next called.1 called.2 in
  let before := Obj.heap σ statement in
  let after := Obj.heap advanced.2 statement in
  called.2 = σ ∧
  (∀ other, other ≠ statement -> Obj.heap advanced.2 other = Obj.heap σ other) ∧
  uuid after = uuid before ∧
  belief after = belief before ∧
  output (Obj.world advanced.2) = output (Obj.world σ) ∧
  (duplicates = false ->
   evidence after = take 1 (matching_evidence keep_only_pmid before) ∧
   (length (evidence after) ≤ 1)%nat) ∧
  (∃ cs, calls (Obj.world advanced.2) = (calls (Obj.world σ) ++ cs)%list ∧
         (cs = [] ∨ cs = [Call_PybelAssembler [after]] ∨
          cs = [Call_PybelAssembler [after]; Call_make_model [after]])) ∧
  (consume called.1 called.2).2 = advanced.2 ∧
  (consume called.1 called.2).1 =
    if decide (kept_evidence before = []) then Returned []
    else (_get_rows_from_statement UNQUALIFIED_EDGES PybelAssembler make_model edge_to_bel
            after (Obj.world σ)).1.
Proof.
  cbn zeta. cbn [Obj.get_rows_from_statement fst snd].
  destruct (consume_created statement duplicates keep_only_pmid σ)
    as (Hheap & Hworld & Hconsume & Hrows).
  assert (Hafter : Obj.heap (next (Obj.Created statement duplicates keep_only_pmid) σ).2
                     statement =
                   (body (Obj.heap σ statement) duplicates keep_only_pmid).1).
  { rewrite Hheap. by rewrite decide_True. }
  rewrite Hafter, Hworld.
  destruct (get_rows_from_statement_run UNQUALIFIED_EDGES PybelAssembler make_model
              edge_to_bel (Obj.heap σ statement) duplicates keep_only_pmid (Obj.world σ))
    as [_ Hcalls].
  split; [done|]. split.
  { intros other Hne. rewrite Hheap. by rewrite decide_False. }
  split.
  { destruct (decide (kept_evidence (Obj.heap σ statement) = [])).
    - by rewrite get_rows_from_statement_short.
    - by rewrite get_rows_from_statement_long. }
  split.
  { destruct (decide (kept_evidence (Obj.heap σ statement) = [])).
    - by rewrite get_rows_from_statement_short.
    - by rewrite get_rows_from_statement_long. }
  split.
  { apply get_rows_from_statement_output. }
  split.
  { intros ->. rewrite evidence_left. split; [done|]. rewrite length_take. lia. }
  split; [exact Hcalls|]. split; [exact Hconsume|].
  rewrite Hrows. destruct (decide (kept_evidence (Obj.heap σ statement) = [])).
  - by rewrite get_rows_from_statement_short.
  - by rewrite get_rows_from_statement_long.
Qed.

Lemma next_created_heap (statement : Obj.ref) (duplicates : bool)
    (keep_only_pmid : option string) (σ : Obj.Store) :
  Obj.heap (next (Obj.Created statement duplicates keep_only_pmid) σ).2 statement =
    (body (Obj.heap σ statement) duplicates keep_only_pmid).1.
Proof.
  destruct (consume_created statement duplicates keep_only_pmid σ) as (Hheap & _).
  rewrite Hheap. by rewrite decide_True.
Qed.

(** X1: once the generator that [get_rows_from_statement] returns has been
    advanced, the evidence of the statement is a sub-sequence of the
    evidence it had: nothing is added or reordered; each entry left passes
    the evidence filter and, with [keep_only_pmid], is from that document. *)
Theorem evidence_left_is_filtered (statement : Obj.ref) (duplicates : bool)
    (keep_only_pmid : option string) (σ : Obj.Store) :
  let called := @Obj.get_rows_from_statement Node statement duplicates keep_only_pmid σ in
  let advanced := next called.1 called.2 in
  let before := Obj.heap σ statement in
  let after := Obj.heap advanced.2 statement in
  evidence after `sublist_of` evidence before ∧
  ∀ e, e ∈ evidence after ->
    truthy (_keep_evidence e) = true ∧
    ∀ p, keep_only_pmid = Some p -> pmid e = Some p.
Proof.
  cbn zeta. cbn [Obj.get_rows_from_statement fst snd]. rewrite next_created_heap.
  apply body_evidence_is_filtered.
Qed.

(** X2: with [duplicates=True], once the generator has been advanced, every
    evidence entry that passes the evidence filter and the optional document
    filter is on the statement, in its original order: an entry is left
    exactly when it was there and passes. *)
Theorem duplicates_keep_all_matching (statement : Obj.ref)
    (keep_only_pmid : option string) (σ : Obj.Store) :
  let called := @Obj.get_rows_from_statement Node statement true keep_only_pmid σ in
  let advanced := next called.1 called.2 in
  let before := Obj.heap σ statement in
  let after := Obj.heap advanced.2 statement in
  evidence after = matching_evidence keep_only_pmid before ∧
  ∀ e, e ∈ evidence after ↔
    e ∈ evidence before ∧ truthy (_keep_evidence e) = true ∧
    ∀ p, keep_only_pmid = Some p -> pmid e = Some p.
Proof.
  cbn zeta. cbn [Obj.get_rows_from_statement fst snd]. rewrite next_created_heap.
  apply body_duplicates_keep_all_matching.
Qed.

(** The loop reads the object of its statement only. *)
Lemma resume_ext (statement : Obj.ref) (graph : BELGraph)
    (es : list (Node * Node * EdgeData)) (σ σ' : Obj.Store) :
  Obj.heap σ statement = Obj.heap σ' statement ->
  (resume statement graph es σ).1 = (resume statement graph es σ').1.
Proof.
  intros Heq. induction es as [|[[u v] data] es IH]; cbn [Obj.resume]; [done|].
  destruct (bool_decide _); [exact IH|].
  destruct (blacklisted _); [exact IH|].
  cbn [fst]. by rewrite Heq.
Qed.

Lemma resume_store (statement : Obj.ref) (graph : BELGraph)
    (es : list (Node * Node * EdgeData)) (σ : Obj.Store) :
  (resume statement graph es σ).2 = σ.
Proof.
  by destruct (resume_spec statement graph es σ) as [[_ ->]|(row & es' & -> & _)].
Qed.

(** X3: a second generator for a statement, advanced after a first one for
    it was advanced (or consumed) with the same options, changes no object;
    when the first left no evidence it stops at once without assembling,
    and otherwise it assembles that statement again. *)
Theorem get_rows_from_statement_second_pass (statement : Obj.ref) (duplicates : bool)
    (keep_only_pmid : option string) (σ : Obj.Store) :
  let first := @Obj.get_rows_from_statement Node statement duplicates keep_only_pmid σ in
  let σ1 := (next first.1 first.2).2 in
  let second := @Obj.get_rows_from_statement Node statement duplicates keep_only_pmid σ1 in
  let advanced := next second.1 second.2 in
  let again := Obj._get_rows_from_statement UNQUALIFIED_EDGES PybelAssembler make_model
                 edge_to_bel statement σ1 in
  (consume first.1 first.2).2 = σ1 ∧
  (∀ r, Obj.heap advanced.2 r = Obj.heap σ1 r) ∧
  (evidence (Obj.heap σ1 statement) = [] ->
   advanced.1 = (Returned None, Obj.Finished) ∧ Obj.world advanced.2 = Obj.world σ1) ∧
  (evidence (Obj.heap σ1 statement) ≠ [] ->
   advanced.1 = again.1 ∧ Obj.world advanced.2 = Obj.world again.2).
Proof.
  cbn zeta. cbn [Obj.get_rows_from_statement fst snd].
  set (σ1 := (next (Obj.Created statement duplicates keep_only_pmid) σ).2).
  assert (Hσ1 : Obj.heap σ1 statement =
                (body (Obj.heap σ statement) duplicates keep_only_pmid).1)
    by apply next_created_heap.
  destruct (evidence_left_kept UNQUALIFIED_EDGES PybelAssembler make_model edge_to_bel
              (Obj.heap σ statement) duplicates keep_only_pmid) as [Hkept _].
  destruct (body_second_pass UNQUALIFIED_EDGES PybelAssembler make_model edge_to_bel
              (Obj.heap σ statement) duplicates keep_only_pmid) as [Hsame _].
  cbn zeta in Hkept, Hsame. rewrite <- Hσ1 in Hkept, Hsame.
  destruct (start_spec statement duplicates keep_only_pmid σ1)
    as (σ' & Hheap & Hworld & Hnext).
  assert (Hheap' : ∀ r, Obj.heap σ' r = Obj.heap σ1 r).
  { intros r. rewrite Hheap. destruct (decide (r = statement)) as [->|]; [|done].
    by rewrite Hsame. }
  split.
  { by destruct (consume_created statement duplicates keep_only_pmid σ)
      as (_ & _ & -> & _). }
  rewrite Hnext, Hkept.
  destruct (decide (evidence (Obj.heap σ1 statement) = [])) as [Hnil|Hcons].
  - cbn [fst snd]. split; [exact Hheap'|]. split; [by intros _|done].
  - unfold Obj._get_rows_from_statement. rewrite Hheap', Hworld.
    destruct (get_graph_from_statement PybelAssembler make_model
                (Obj.heap σ1 statement) (Obj.world σ1)) as [[graph|e] w].
    + rewrite !resume_store. cbn [Obj.heap Obj.world Obj.with_world].
      split; [exact Hheap'|]. split; [done|]. intros _. split; [|done].
      apply resume_ext. cbn [Obj.heap Obj.with_world]. apply Hheap'.
    + cbn [fst snd Obj.heap Obj.world Obj.with_world].
      split; [exact Hheap'|]. split; [done|]. by intros _.
Qed.

(** *** Consuming the rows of a list of statement objects *)

Local Abbreviation consume_all :=
  (Obj.consume_rows_from_statements UNQUALIFIED_EDGES PybelAssembler make_model
     edge_to_bel).
Local Abbreviation get_all :=
  (get_rows_from_statements UNQUALIFIED_EDGES PybelAssembler make_model edge_to_bel).

Lemma consume_rows_from_statements_cons (statement : Obj.ref) (statements : list Obj.ref)
    (duplicates : bool) (keep_only_pmid : option string) (σ : Obj.Store) :
  consume_all (statement :: statements) duplicates keep_only_pmid σ =
    match consume (Obj.Created statement duplicates keep_only_pmid) σ with
    | (Returned rows, σ') =>
        match consume_all statements duplicates keep_only_pmid σ' with
        | (Returned rows', σ'') => (Returned (rows ++ rows')%list, σ'')
        | (Raised e, σ'') => (Raised e, σ'')
        end
    | (Raised e, σ') => (Raised e, σ')
    end.
Proof. reflexivity. Qed.

(** What consuming one generator does to the objects and the output. *)
Lemma consume_created_objects (statement : Obj.ref) (duplicates : bool)
    (keep_only_pmid : option string) (σ : Obj.Store) :
  let σ' := (consume (Obj.Created statement duplicates keep_only_pmid) σ).2 in
  output (Obj.world σ') = output (Obj.world σ) ∧
  (∀ r, r ≠ statement -> Obj.heap σ' r = Obj.heap σ r) ∧
  (∀ r, evidence (Obj.heap σ' r) `sublist_of` evidence (Obj.heap σ r)) ∧
  Forall (fun e => truthy (_keep_evidence e) = true ∧
                   ∀ p, keep_only_pmid = Some p -> pmid e = Some p)
         (evidence (Obj.heap σ' statement)).
Proof.
  cbn zeta.
  destruct (consume_created statement duplicates keep_only_pmid σ)
    as (Hheap & Hworld & -> & _).
  destruct (body_evidence_is_filtered UNQUALIFIED_EDGES PybelAssembler make_model
              edge_to_bel (Obj.heap σ statement) duplicates keep_only_pmid)
    as [Hsub Hall].
  split; [rewrite Hworld; apply get_rows_from_statement_output|].
  split; [intros r Hne; rewrite Hheap; by rewrite decide_False|].
  split.
  - intros r. rewrite Hheap. destruct (decide (r = statement)) as [->|]; [exact Hsub|done].
  - rewrite Hheap, decide_True by done. apply Forall_forall. exact Hall.
Qed.

(** Consuming the rows of a list of statements writes nothing, takes
    evidence off the listed objects only and, when it comes to its end,
    leaves on each of them only evidence that passes the filters. *)
Lemma consume_rows_from_statements_objects (statements : list Obj.ref)
    (duplicates : bool) (keep_only_pmid : option string) (σ : Obj.Store) :
  let result := consume_all statements duplicates keep_only_pmid σ in
  output (Obj.world result.2) = output (Obj.world σ) ∧
  (∀ r, r ∉ statements -> Obj.heap result.2 r = Obj.heap σ r) ∧
  (∀ r, evidence (Obj.heap result.2 r) `sublist_of` evidence (Obj.heap σ r)) ∧
  (∀ rows, result.1 = Returned rows ->
     ∀ r, r ∈ statements ->
       Forall (fun e => truthy (_keep_evidence e) = true ∧
                        ∀ p, keep_only_pmid = Some p -> pmid e = Some p)
              (evidence (Obj.heap result.2 r))).
Proof.
  revert σ. induction statements as [|statement statements IH]; intros σ.
  { cbn. split; [done|]. split; [done|]. split; [done|].
    by intros rows _ r ?%elem_of_nil. }
  cbn zeta. rewrite consume_rows_from_statements_cons.
  destruct (consume_created_objects statement duplicates keep_only_pmid σ)
    as (Hout1 & Hother1 & Hsub1 & Hall1).
  destruct (consume (Obj.Created statement duplicates keep_only_pmid) σ)
    as [[rows1|e] σ1]; cbn [fst snd] in *.
  2:{ split; [done|]. split.
      - intros r Hr. apply Hother1. intros ->. apply Hr. by left.
      - split; [done|]. by intros rows [=]. }
  destruct (IH σ1) as (Hout2 & Hother2 & Hsub2 & Hall2).
  assert (Hresult : ∀ rows2 σ2,
            consume_all statements duplicates keep_only_pmid σ1 = (rows2, σ2) ->
            output (Obj.world σ2) = output (Obj.world σ) ∧
            (∀ r, r ∉ statement :: statements -> Obj.heap σ2 r = Obj.heap σ r) ∧
            (∀ r, evidence (Obj.heap σ2 r) `sublist_of` evidence (Obj.heap σ r)) ∧
            (∀ rows, rows2 = Returned rows ->
               ∀ r, r ∈ statement :: statements ->
                 Forall (fun e => truthy (_keep_evidence e) = true ∧
                                  ∀ p, keep_only_pmid = Some p -> pmid e = Some p)
                        (evidence (Obj.heap σ2 r)))).
  { intros rows2 σ2 Heq. rewrite Heq in *. cbn [fst snd] in *.
    split; [congruence|]. split.
    - intros r Hr. rewrite Hother2, Hother1; [done| |].
      + intros ->. apply Hr. by left.
      + intros Hin. apply Hr. by right.
    - split; [intros r; etrans; [apply Hsub2|apply Hsub1]|].
      intros rows Hrows r [->|Hin]%elem_of_cons.
      + eapply Forall_sublist; [apply Hsub2|exact Hall1].
      + by apply (Hall2 rows). }
  destruct (consume_all statements duplicates keep_only_pmid σ1) as [[rows2|e] σ2];
    cbn [fst snd].
  - destruct (Hresult _ _ eq_refl) as (H1 & H2 & H3 & H4).
    split; [done|]. split; [done|]. split; [done|].
    intros rows _. by apply (H4 rows2).
  - destruct (Hresult _ _ eq_refl) as (H1 & H2 & H3 & _).
    split; [done|]. split; [done|]. split; [done|]. by intros rows [=].
Qed.

(** For statements that are distinct objects, consuming their rows is
    [get_rows_from_statements] on their values. *)
Lemma consume_distinct_statements (statements : list Obj.ref) (duplicates : bool)
    (keep_only_pmid : option string) (σ : Obj.Store) :
  NoDup statements ->
  (consume_all statements duplicates keep_only_pmid σ).1 =
    (get_all (map (Obj.heap σ) statements) duplicates keep_only_pmid (Obj.world σ)).1 ∧
  Obj.world (consume_all statements duplicates keep_only_pmid σ).2 =
    (get_all (map (Obj.heap σ) statements) duplicates keep_only_pmid (Obj.world σ)).2.
Proof.
  intros Hnodup. revert σ.
  induction Hnodup as [|statement statements Hnotin _ IH]; intros σ; [done|].
  rewrite consume_rows_from_statements_cons. cbn [map].
  rewrite get_rows_from_statements_cons.
  destruct (consume_created statement duplicates keep_only_pmid σ)
    as (Hheap & Hworld & Hstore & Hrun).
  rewrite <- Hstore in Hheap, Hworld.
  destruct (consume (Obj.Created statement duplicates keep_only_pmid) σ)
    as [r1 σ1]; cbn [fst snd] in *.
  destruct ((body (Obj.heap σ statement) duplicates keep_only_pmid).2 (Obj.world σ))
    as [r1' w1]; cbn [fst snd] in *. subst r1' w1.
  destruct r1 as [rows1|e]; [|done].
  assert (Hmap : map (Obj.heap σ1) statements = map (Obj.heap σ) statements).
  { apply map_ext_in. intros r Hr. rewrite Hheap.
    destruct (decide (r = statement)) as [->|]; [|done].
    by apply list_elem_of_In in Hr. }
  destruct (IH σ1) as [IH1 IH2]. rewrite Hmap in IH1, IH2.
  destruct (consume_all statements duplicates keep_only_pmid σ1) as [r2 σ2];
    cbn [fst snd] in *.
  destruct (get_all (map (Obj.heap σ) statements) duplicates keep_only_pmid (Obj.world σ1))
    as [r2' w2]; cbn [fst snd] in *. subst r2' w2.
  by destruct r2.
Qed.

End Objects.

(** C4, with the evidence cut down after the call, fails: the call alone
    leaves the three evidence entries of the statement; one is left once
    the generator has been advanced. *)
Lemma call_alone_leaves_evidence :
  let called := @Obj.get_rows_from_statement string 2%nat false None sample_store in
  let advanced :=
    Obj.next sample_unqualified sample_assembler sample_make_model sample_edge_to_bel
      called.1 called.2 in
  evidence (Obj.heap called.2 2%nat) = [sample_evidence; unusable_evidence; other_evidence] ∧
  ¬ (length (evidence (Obj.heap called.2 2%nat)) ≤ 1)%nat ∧
  evidence (Obj.heap advanced.2 2%nat) = [sample_evidence].
Proof.
  split; [reflexivity|]. split; [simpl; lia|]. vm_compute. reflexivity.
Qed.

(** *** The two entry points *)

Section EntryPoints.

Context {Node Assembler : Type}.
Variable UNQUALIFIED_EDGES : gset string.
Variable PybelAssembler : list Statement -> outcome Assembler.
Variable make_model : Assembler -> outcome (@BELGraph Node).
Variable edge_to_bel : @BELGraph Node -> Node -> Node -> EdgeData -> string -> bool -> string.
Variable run_preassembly :
  list Obj.ref -> (Obj.ref -> Statement) -> list Obj.ref * (Obj.ref -> Statement).
Variable filter_belief :
  list Obj.ref -> PyFloat.float -> (Obj.ref -> Statement) ->
  list Obj.ref * (Obj.ref -> Statement).
Variable get_statements :
  list string -> (Obj.ref -> Statement) -> outcome (list Obj.ref) * (Obj.ref -> Statement).
Variable get_statements_for_paper :
  list (string * string) -> (Obj.ref -> Statement) ->
  outcome (list Obj.ref) * (Obj.ref -> Statement).

Local Abbreviation consume_all :=
  (Obj.consume_rows_from_statements UNQUALIFIED_EDGES PybelAssembler make_model
     edge_to_bel).
Local Abbreviation prepared := (Obj.preassembled run_preassembly filter_belief).
Local Abbreviation print_all :=
  (Obj.print_statements UNQUALIFIED_EDGES PybelAssembler make_model edge_to_bel
     run_preassembly filter_belief).
Local Abbreviation from_agents :=
  (Obj.get_and_write_statements_from_agents UNQUALIFIED_EDGES PybelAssembler make_model
     edge_to_bel run_preassembly filter_belief get_statements).
Local Abbreviation from_pmids :=
  (Obj.get_and_write_statements_from_pmids UNQUALIFIED_EDGES PybelAssembler make_model
     edge_to_bel run_preassembly filter_belief get_statements_for_paper).

(** One run of [print_statements] on objects. *)
Lemma print_statements_objects_run {K} `{PyLt K} (statements : list Obj.ref)
    (sep : option string) (limit : option Z) (duplicates : bool)
    (keep_only_pmid : option string) (sort_key : Row -> K)
    (minimum_belief : option PyFloat.float) (σ : Obj.Store) :
  print_all statements sep limit duplicates keep_only_pmid sort_key minimum_belief σ =
    match consume_all (prepared minimum_belief statements (Obj.heap σ)).1
            duplicates keep_only_pmid
            {| Obj.heap := (prepared minimum_belief statements (Obj.heap σ)).2;
               Obj.world := written (Obj.world σ) [join (or_default sep TAB) header] |} with
    | (Returned rows, σ1) =>
        (Returned tt,
         Obj.with_world σ1
           (written (Obj.world σ1)
              (map (data_line (or_default sep TAB)) (limited limit (sorted rows sort_key)))))
    | (Raised e, σ1) => (Raised e, σ1)
    end.
Proof.
  unfold Obj.print_statements, Obj.preassembled.
  cbn [Obj.heap Obj.world Obj.with_world].
  destruct (run_preassembly statements (Obj.heap σ)) as [statements1 h1].
  assert (Hheader : (print header (or_default sep TAB) (Obj.world σ)).2 =
                    written (Obj.world σ) [join (or_default sep TAB) header]) by done.
  rewrite Hheader.
  destruct minimum_belief as [cutoff|].
  - destruct (filter_belief statements1 cutoff h1) as [statements2 h2]. cbn [fst snd].
    destruct (consume_all statements2 duplicates keep_only_pmid _) as [[rows|e] σ1]; [|done].
    by rewrite for_each_print.
  - cbn [fst snd].
    destruct (consume_all statements1 duplicates keep_only_pmid _) as [[rows|e] σ1]; [|done].
    by rewrite for_each_print.
Qed.

(** What follows retrieval, in both entry points. *)
Lemma write_and_return (statements : list Obj.ref) (sep : option string)
    (limit : option Z) (duplicates : bool) (keep_only_pmid : option string)
    (minimum_belief : option PyFloat.float) (σ : Obj.Store) :
  let line := join (or_default sep TAB) header in
  let reached := prepared minimum_belief statements (Obj.heap σ) in
  let run :=
    match print_all statements sep limit duplicates keep_only_pmid attrgetter_uuid_pmid
            minimum_belief σ with
    | (Returned _, σ') => (Returned statements, σ')
    | (Raised e, σ') => (Raised e, σ')
    end in
  match consume_all reached.1 duplicates keep_only_pmid
          {| Obj.heap := reached.2; Obj.world := written (Obj.world σ) [line] |} with
  | (Raised e, σ1) =>
      run = (Raised e, σ1) ∧ output (Obj.world σ1) = (output (Obj.world σ) ++ [line])%list
  | (Returned rows, σ1) =>
      run.1 = Returned statements ∧
      output (Obj.world run.2) =
        (output (Obj.world σ) ++ line ::
         map (data_line (or_default sep TAB))
             (limited limit (sorted rows attrgetter_uuid_pmid)))%list ∧
      (∀ r, r ∉ reached.1 -> Obj.heap run.2 r = reached.2 r) ∧
      ∀ r, r ∈ reached.1 ->
        evidence (Obj.heap run.2 r) `sublist_of` evidence (reached.2 r) ∧
        Forall (fun e => truthy (_keep_evidence e) = true ∧
                         ∀ p, keep_only_pmid = Some p -> pmid e = Some p)
               (evidence (Obj.heap run.2 r))
  end.
Proof.
  cbn zeta. rewrite print_statements_objects_run.
  set (reached := prepared minimum_belief statements (Obj.heap σ)).
  set (σ0 := {| Obj.heap := reached.2;
                Obj.world := written (Obj.world σ) [join (or_default sep TAB) header] |}).
  destruct (consume_rows_from_statements_objects UNQUALIFIED_EDGES PybelAssembler
              make_model edge_to_bel reached.1 duplicates keep_only_pmid σ0)
    as (Hout & Hother & Hsub & Hall).
  destruct (consume_all reached.1 duplicates keep_only_pmid σ0) as [[rows|e] σ1];
    subst σ0; cbn [fst snd Obj.heap Obj.world Obj.with_world written output] in *.
  - split; [done|]. split; [by rewrite Hout, <- app_assoc|]. split; [exact Hother|].
    intros r Hr. split; [apply Hsub|by apply (Hall rows)].
  - by split.
Qed.

(** X16: [get_and_write_statements_from_agents] asks for the agents given, a
    single name counting as a list of one.  When retrieval raises, nothing
    is written; when extraction raises, the header line alone is written;
    otherwise the rows are written, sorted by (uuid, pmid) and without a
    document filter, and the list returned is the list of objects
    retrieved, those that [minimum_belief] keeps from the output included;
    the objects that reached extraction have their evidence filtered in
    place, the others are as preassembly left them. *)
Theorem from_agents_run (agents : str_or_list) (sep : option string) (limit : option Z)
    (duplicates : bool) (minimum_belief : option PyFloat.float) (σ : Obj.Store) :
  let run := from_agents agents sep limit duplicates minimum_belief σ in
  let line := join (or_default sep TAB) header in
  match get_statements (as_list agents) (Obj.heap σ) with
  | (Raised e, h) => run.1 = Raised e ∧ Obj.world run.2 = Obj.world σ
  | (Returned statements, h) =>
      let reached := prepared minimum_belief statements h in
      match consume_all reached.1 duplicates None
              {| Obj.heap := reached.2; Obj.world := written (Obj.world σ) [line] |} with
      | (Raised e, σ1) =>
          run = (Raised e, σ1) ∧
          output (Obj.world σ1) = (output (Obj.world σ) ++ [line])%list
      | (Returned rows, σ1) =>
          run.1 = Returned statements ∧
          output (Obj.world run.2) =
            (output (Obj.world σ) ++ line ::
             map (data_line (or_default sep TAB))
                 (limited limit (sorted rows attrgetter_uuid_pmid)))%list ∧
          (∀ r, r ∉ reached.1 -> Obj.heap run.2 r = reached.2 r) ∧
          ∀ r, r ∈ reached.1 ->
            evidence (Obj.heap run.2 r) `sublist_of` evidence (reached.2 r) ∧
            Forall (fun e => truthy (_keep_evidence e) = true ∧
                             ∀ p, @None string = Some p -> pmid e = Some p)
                   (evidence (Obj.heap run.2 r))
      end
  end.
Proof.
  cbn zeta. unfold Obj.get_and_write_statements_from_agents.
  change (match agents with Str s => [s] | Strs l => l end) with (as_list agents).
  destruct (get_statements (as_list agents) (Obj.heap σ)) as [[statements|e] h]; [|done].
  apply (write_and_return statements sep limit duplicates None minimum_belief
           {| Obj.heap := h; Obj.world := Obj.world σ |}).
Qed.

(** X17: [get_and_write_statements_from_pmids] asks for the stripped
    identifiers and hands [keep_only_pmid] on as it is.  When retrieval
    raises, nothing is written; when extraction raises, the header line
    alone is written; otherwise the rows are written, sorted by
    (uuid, pmid), and the list returned is the list of objects retrieved;
    the objects that reached extraction have their evidence filtered in
    place, down to the document asked for when there is one. *)
Theorem from_pmids_run (pmids : str_or_list) (sep : option string) (limit : option Z)
    (duplicates : bool) (keep_only_pmid : option string)
    (minimum_belief : option PyFloat.float) (σ : Obj.Store) :
  let run := from_pmids pmids sep limit duplicates keep_only_pmid minimum_belief σ in
  let line := join (or_default sep TAB) header in
  match get_statements_for_paper
          (map (fun pmid => ("pmid", PyStr.strip pmid)) (as_list pmids)) (Obj.heap σ) with
  | (Raised e, h) => run.1 = Raised e ∧ Obj.world run.2 = Obj.world σ
  | (Returned statements, h) =>
      let reached := prepared minimum_belief statements h in
      match consume_all reached.1 duplicates keep_only_pmid
              {| Obj.heap := reached.2; Obj.world := written (Obj.world σ) [line] |} with
      | (Raised e, σ1) =>
          run = (Raised e, σ1) ∧
          output (Obj.world σ1) = (output (Obj.world σ) ++ [line])%list
      | (Returned rows, σ1) =>
          run.1 = Returned statements ∧
          output (Obj.world run.2) =
            (output (Obj.world σ) ++ line ::
             map (data_line (or_default sep TAB))
                 (limited limit (sorted rows attrgetter_uuid_pmid)))%list ∧
          (∀ r, r ∉ reached.1 -> Obj.heap run.2 r = reached.2 r) ∧
          ∀ r, r ∈ reached.1 ->
            evidence (Obj.heap run.2 r) `sublist_of` evidence (reached.2 r) ∧
            Forall (fun e => truthy (_keep_evidence e) = true ∧
                             ∀ p, keep_only_pmid = Some p -> pmid e = Some p)
                   (evidence (Obj.heap run.2 r))
      end
  end.
Proof.
  cbn zeta. unfold Obj.get_and_write_statements_from_pmids.
  assert (Hids : paper_ids pmids =
                 map (fun pmid => ("pmid", PyStr.strip pmid)) (as_list pmids))
    by by destruct pmids.
  rewrite Hids.
  destruct (get_statements_for_paper _ (Obj.heap σ)) as [[statements|e] h]; [|done].
  apply (write_and_return statements sep limit duplicates keep_only_pmid minimum_belief
           {| Obj.heap := h; Obj.world := Obj.world σ |}).
Qed.

End EntryPoints.

Lemma from_agents_run_witness :
  let run :=
    Obj.get_and_write_statements_from_agents sample_unqualified sample_assembler
      sample_make_model sample_edge_to_bel sample_run_preassembly
      sample_filter_belief_objects sample_get_statements (Str "MAPT") None None false
      (Some (PyFloat.strtod false 9 (-1))) sample_store in
  run.1 = Returned [0; 1]%nat ∧
  output (Obj.world run.2) = [join TAB header; data_line TAB sample_row] ∧
  evidence (Obj.heap sample_store 1%nat) = [unusable_evidence; sample_evidence] ∧
  evidence (Obj.heap run.2 1%nat) = [sample_evidence].
Proof.
  pose proof (from_agents_run sample_unqualified sample_assembler sample_make_model
                sample_edge_to_bel sample_run_preassembly sample_filter_belief_objects
                sample_get_statements (Str "MAPT") None None false
                (Some (PyFloat.strtod false 9 (-1))) sample_store) as Hrun.
  vm_compute in Hrun. destruct Hrun as (Hreturned & Houtput & _).
  split; [vm_compute; exact Hreturned|].
  split; [vm_compute; exact Houtput|].
  split; [reflexivity|]. vm_compute. reflexivity.
Defined.

Lemma from_pmids_run_witness :
  let down :=
    Obj.get_and_write_statements_from_pmids sample_unqualified sample_assembler
      sample_make_model sample_edge_to_bel sample_run_preassembly
      sample_filter_belief_objects failing_service (Strs [" 111"; "222 "]) None None false
      (Some "222") None sample_store in
  let run :=
    Obj.get_and_write_statements_from_pmids sample_unqualified sample_assembler
      sample_make_model sample_edge_to_bel sample_run_preassembly
      sample_filter_belief_objects sample_get_statements_for_paper
      (Strs [" 111"; "222 "]) None None false (Some "222") None sample_store in
  (down.1 = Raised (OtherException "IndraDBRestAPIError" "502 Bad Gateway") ∧
   Obj.world down.2 = empty_world) ∧
  run.1 = Returned [1; 2]%nat ∧
  output (Obj.world run.2) = [join TAB header; data_line TAB other_row] ∧
  evidence (Obj.heap run.2 1%nat) = [] ∧
  evidence (Obj.heap run.2 2%nat) = [other_evidence].
Proof.
  split.
  - exact (from_pmids_run sample_unqualified sample_assembler sample_make_model
             sample_edge_to_bel sample_run_preassembly sample_filter_belief_objects
             failing_service (Strs [" 111"; "222 "]) None None false (Some "222") None
             sample_store).
  - pose proof (from_pmids_run sample_unqualified sample_assembler sample_make_model
                  sample_edge_to_bel sample_run_preassembly sample_filter_belief_objects
                  sample_get_statements_for_paper (Strs [" 111"; "222 "]) None None false
                  (Some "222") None sample_store) as Hrun.
    vm_compute in Hrun. destruct Hrun as (Hreturned & Houtput & _).
    split; [vm_compute; exact Hreturned|].
    split; [vm_compute; exact Houtput|].
    split; vm_compute; reflexivity.
Defined.
